(** * app-front: the admin panel and the public stage view

    A shallow embedding of the two React components of the repository,
    [AdminPanel] and [DownloadPage].  Their event handlers are async
    functions that read the state of the render they were created in, call
    the remote HTTP API through axios, open SweetAlert dialogs, write to the
    console and schedule React state updates.  Handlers are embedded as
    trees of such effects ([task]); running a tree against a server gives
    the trace of what the browser observed, unhandled rejections included,
    and the browser's state afterwards. *)

From Stdlib Require Import Ascii.
From stdpp Require Import base strings list gmap pretty.

Local Open Scope string_scope.
Local Open Scope Z_scope.
Local Open Scope list_scope.

(** ** Data model *)

(** The union type ["ongoing" | "completed" | "incomplete"] of
    [DownloadPage.tsx]. *)
Module Status.
Inductive t := ongoing | completed | incomplete.

Definition to_string (s : t) : string :=
  match s with
  | ongoing => "ongoing"
  | completed => "completed"
  | incomplete => "incomplete"
  end.
End Status.

(** Modelled from the spec: [Stage] is imported from [../types], which is
    not part of the sources; the spec gives its shape as
    Stage{id, name, status, order}.  Identifiers are integer-valued
    numbers. *)
Module Stage.
Record t := Build { id : Z; name : string; status : Status.t; order : Z }.

(** The object spread [{ ...stage, status }]. *)
Definition with_status (stage : t) (s : Status.t) : t :=
  {| id := id stage; name := name stage; status := s; order := order stage |}.
End Stage.

(** The elements of [projects].  The panel keeps [response.data] as it
    came and reads these two fields of its elements, both strings. *)
Module Project.
Record t := Build { projectId : string; projectName : string }.
End Project.

Module Download.
Record t := Build { id : Z; name : string; description : string; url : string }.
End Download.

(** ** HTTP requests and replies *)

Inductive method := GET | POST | PUT | DELETE.

(** The JSON bodies the components send. *)
Inductive payload :=
| NoBody
| ProjectBody (projectName : string) (stages : list Stage.t)
| NameBody (name : string)
| DownloadBody (name description url : string)
| StatusBody (status : string)
| StagesBody (stages : list (option Stage.t)).

Record request := Request { req_method : method; req_url : string; req_body : payload }.

(** What a rejected axios promise carries. *)
Definition failure := string.

(** The shape of [response.data] the caller relies on. *)
Inductive kind := KProjects | KProject | KDownloads | KIgnored.

Definition data (T : kind) : Type :=
  match T with
  | KProjects => list Project.t
  | KProject => option (list Stage.t)    (* [response.data.stages], possibly undefined *)
  | KDownloads => list Download.t
  | KIgnored => unit
  end.

(** How an axios promise settles. *)
Inductive reply (T : kind) :=
| Resolved (d : data T)
| Failed (e : failure).
Arguments Resolved {T} d.
Arguments Failed {T} e.

(** The remote backend, as seen from the browser: the reply to the [n]-th
    request sent. *)
Definition server := nat -> request -> forall T : kind, reply T.

(** The origin every URL in the two components starts with. *)
Definition baseURL : string := "https://app-back-99ll.onrender.com".

(** The endpoints of the backend as the specification lists them:
    [/projects], [/projects/:id], [/projects/stage/:projectId],
    [/projects/stage/:projectId/:stageId], [/reorder/:projectId] and
    [/downloads[/:id]], each with the methods it is consumed with. *)
Inductive documented : request -> Prop :=
| get_projects body :
    documented (Request GET (baseURL +:+ "/projects") body)
| post_projects body :
    documented (Request POST (baseURL +:+ "/projects") body)
| get_project id body :
    documented (Request GET (baseURL +:+ "/projects/" +:+ id) body)
| delete_project id body :
    documented (Request DELETE (baseURL +:+ "/projects/" +:+ id) body)
| post_stage projectId body :
    documented (Request POST (baseURL +:+ "/projects/stage/" +:+ projectId) body)
| put_stage projectId stageId body :
    documented (Request PUT (baseURL +:+ "/projects/stage/" +:+ projectId
                               +:+ "/" +:+ stageId) body)
| delete_stage projectId stageId body :
    documented (Request DELETE (baseURL +:+ "/projects/stage/" +:+ projectId
                                  +:+ "/" +:+ stageId) body)
| put_reorder projectId body :
    documented (Request PUT (baseURL +:+ "/reorder/" +:+ projectId) body)
| get_downloads body :
    documented (Request GET (baseURL +:+ "/downloads") body)
| post_downloads body :
    documented (Request POST (baseURL +:+ "/downloads") body)
| delete_download id body :
    documented (Request DELETE (baseURL +:+ "/downloads/" +:+ id) body).

(** ** Effects other than HTTP *)

Inductive icon := icon_success | icon_error | icon_warning.

Record alert := Alert { alert_icon : icon; alert_title : string; alert_text : string }.

Section Runtime.
(** [U] is the type of the [useState] setters' calls of a component and
    [S] its state. *)
Context {S U : Type}.
Variable reduce : U -> S -> S.

Inductive effect :=
| SetState (u : U)
| Fire (a : alert)                          (* SweetAlert.fire *)
| ConsoleError (msg : string) (e : failure) (* console.error *)
| SetItem (key value : string)              (* localStorage.setItem *)
| ReplaceState (url : string).              (* window.history.replaceState *)

(** An async function body.  [Await] is [await axios.<method>(...)];
    [Spawn] is the call of an async function whose promise is dropped. *)
Inductive task (A : Type) : Type :=
| Ret (a : A)
| Throw (e : failure)
| Do (a : effect) (k : task A)
| GetItem (key : string) (k : option string -> task A)
| Href (k : string -> task A)
| Await (r : request) (T : kind) (k : reply T -> task A)
| Spawn (child : task unit) (k : task A).

Arguments Ret {A} a.
Arguments Throw {A} e.
Arguments Do {A} a k.
Arguments GetItem {A} key k.
Arguments Href {A} k.
Arguments Await {A} r T k.
Arguments Spawn {A} child k.

Fixpoint bind {A B} (t : task A) (f : A -> task B) : task B :=
  match t with
  | Ret a => f a
  | Throw e => Throw e
  | Do a k => Do a (bind k f)
  | GetItem key k => GetItem key (fun v => bind (k v) f)
  | Href k => Href (fun v => bind (k v) f)
  | Await r T k => Await r T (fun rep => bind (k rep) f)
  | Spawn c k => Spawn c (bind k f)
  end.

(** [try { body } catch (error) { handler }].  A promise dropped inside
    the [try] block is not covered by it. *)
Fixpoint try_catch {A} (body : task A) (handler : failure -> task A) : task A :=
  match body with
  | Ret a => Ret a
  | Throw e => handler e
  | Do a k => Do a (try_catch k handler)
  | GetItem key k => GetItem key (fun v => try_catch (k v) handler)
  | Href k => Href (fun v => try_catch (k v) handler)
  | Await r T k => Await r T (fun rep => try_catch (k rep) handler)
  | Spawn c k => Spawn c (try_catch k handler)
  end.

Definition axios (m : method) (url : string) (body : payload) (T : kind) : task (data T) :=
  Await (Request m url body) T
        (fun rep => match rep with Resolved d => Ret d | Failed e => Throw e end).

Definition setState (u : U) : task unit := Do (SetState u) (Ret tt).
Definition fire (a : alert) : task unit := Do (Fire a) (Ret tt).
Definition console_error (msg : string) (e : failure) : task unit :=
  Do (ConsoleError msg e) (Ret tt).
Definition setItem (key value : string) : task unit := Do (SetItem key value) (Ret tt).
Definition replaceState (url : string) : task unit := Do (ReplaceState url) (Ret tt).
Definition getItem (key : string) : task (option string) := GetItem key Ret.
Definition location_href : task string := Href Ret.
Definition spawn (child : task unit) : task unit := Spawn child (Ret tt).

(** ** Running a task *)

Record world := World {
  component : S;                       (* the component's React state *)
  localStorage : gmap string string;
  href : string;                       (* window.location.href *)
  sent : nat                           (* requests sent so far *)
}.

Inductive event :=
| Performed (a : effect)
| Requested (r : request)
| UnhandledRejection (e : failure).

Inductive outcome (A : Type) :=
| Fulfilled (a : A)
| Rejected (e : failure).
Arguments Fulfilled {A} a.
Arguments Rejected {A} e.

Definition perform (a : effect) (w : world) : world :=
  match a with
  | SetState u => World (reduce u (component w)) (localStorage w) (href w) (sent w)
  | Fire _ => w
  | ConsoleError _ _ => w
  | SetItem key value => World (component w) (<[key := value]> (localStorage w)) (href w) (sent w)
  | ReplaceState url => World (component w) (localStorage w) url (sent w)
  end.

Definition send (w : world) : world :=
  World (component w) (localStorage w) (href w) (Datatypes.S (sent w)).

(** A promise nobody awaits: its rejection is reported by the browser and
    goes nowhere else. *)
Definition settle {A} (r : world * list event * outcome A) : world * list event :=
  match r with
  | (w, evs, Fulfilled _) => (w, evs)
  | (w, evs, Rejected e) => (w, evs ++ [UnhandledRejection e])
  end.

Variable srv : server.

(** [run] executes a task somebody waits for, to completion.  [start]
    executes a task whose promise was dropped: it runs synchronously up
    to its first [await] of a request, which is sent at once, and the
    rest is deferred until the caller is done; the replies to requests
    of calls dropped one after the other are handled in the order the
    requests were sent. *)
Fixpoint run {A : Type} (t : task A) (w : world) : world * list event * outcome A :=
  match t with
  | Ret a => (w, [], Fulfilled a)
  | Throw e => (w, [], Rejected e)
  | Do a k =>
      let '(w', evs, o) := run k (perform a w) in (w', Performed a :: evs, o)
  | GetItem key k => run (k (localStorage w !! key)) w
  | Href k => run (k (href w)) w
  | Await r T k =>
      let '(w', evs, o) := run (k (srv (sent w) r T)) (send w) in
      (w', Requested r :: evs, o)
  | Spawn c k =>
      let '(w1, evs1, later) := start c w in
      let '(w2, evs2, o) := run k w1 in
      let '(w3, evs3) := later w2 in
      (w3, evs1 ++ evs2 ++ evs3, o)
  end
with start {A : Type} (t : task A) (w : world)
    : world * list event * (world -> world * list event) :=
  match t with
  | Ret _ => (w, [], fun w' => (w', []))
  | Throw e => (w, [UnhandledRejection e], fun w' => (w', []))
  | Do a k =>
      let '(w', evs, later) := start k (perform a w) in (w', Performed a :: evs, later)
  | GetItem key k => start (k (localStorage w !! key)) w
  | Href k => start (k (href w)) w
  | Await r T k =>
      (send w, [Requested r], fun w' => settle (run (k (srv (sent w) r T)) w'))
  | Spawn c k =>
      let '(w1, evs1, later1) := start c w in
      let '(w2, evs2, later2) := start k w1 in
      (w2, evs1 ++ evs2,
       fun w' => let '(w3, evs3) := later1 w' in
                 let '(w4, evs4) := later2 w3 in (w4, evs3 ++ evs4))
  end.

(** React calling an event handler or an effect: the promise it gets
    back is dropped. *)
Definition invoke (t : task unit) (w : world) : world * list event :=
  let '(w1, evs1, later) := start t w in
  let '(w2, evs2) := later w1 in
  (w2, evs1 ++ evs2).

Definition final (r : world * list event) : world := r.1.
Definition trace (r : world * list event) : list event := r.2.

Definition requests (evs : list event) : list request :=
  omap (fun ev => match ev with Requested r => Some r | _ => None end) evs.

Definition alerts (evs : list event) : list alert :=
  omap (fun ev => match ev with Performed (Fire a) => Some a | _ => None end) evs.

(** What an event did to the browser. *)
Definition observe (w : world) (ev : event) : world :=
  match ev with
  | Performed a => perform a w
  | Requested _ => send w
  | UnhandledRejection _ => w
  end.

Definition replay (w : world) (evs : list event) : world := foldl observe w evs.

(** The effects that leave the browser's own stores alone. *)
Definition storeless (a : effect) : Prop :=
  match a with
  | SetItem _ _ | ReplaceState _ => False
  | _ => True
  end.

(** ** What a task can do at all *)

Section Within.
(** The effects, requests and uncaught failures a task is confined to,
    whatever the server replies. *)
Variable allow_effect : effect -> Prop.
Variable allow_request : request -> Prop.
Variable allow_throw : failure -> Prop.

Fixpoint within {A : Type} (t : task A) : Prop :=
  match t with
  | Ret _ => True
  | Throw e => allow_throw e
  | Do a k => allow_effect a /\ within k
  | GetItem _ k => forall v, within (k v)
  | Href k => forall v, within (k v)
  | Await r T k => allow_request r /\ forall rep, within (k rep)
  | Spawn c k => within c /\ within k
  end.

Definition allowed (ev : event) : Prop :=
  match ev with
  | Performed a => allow_effect a
  | Requested r => allow_request r
  | UnhandledRejection e => allow_throw e
  end.
End Within.
End Runtime.

Arguments effect U : clear implicits.
Arguments task U A : clear implicits.
Arguments event U : clear implicits.
Arguments world S : clear implicits.
Arguments Ret {U A} a.
Arguments Throw {U A} e.
Arguments Do {U A} a k.
Arguments GetItem {U A} key k.
Arguments Href {U A} k.
Arguments Await {U A} r T k.
Arguments Spawn {U A} child k.
Arguments Fire {U} a.
Arguments ConsoleError {U} msg e.
Arguments SetItem {U} key value.
Arguments ReplaceState {U} url.
Arguments Requested {U} r.
Arguments UnhandledRejection {U} e.
Arguments Fulfilled {A} a.
Arguments Rejected {A} e.
Arguments axios {U} m url body T.
Arguments fire {U} a.
Arguments console_error {U} msg e.
Arguments setItem {U} key value.
Arguments replaceState {U} url.
Arguments getItem {U} key.
Arguments location_href {U}.
Arguments storeless {U} a.
Arguments within {U} allow_effect allow_request allow_throw {A} t.
Arguments allowed {U} allow_effect allow_request allow_throw ev.

Declare Scope task_scope.
Delimit Scope task_scope with task.
Notation "x ← y ; z" := (bind y (fun x => z))
  (at level 20, y at level 100, z at level 200, only parsing) : task_scope.
Notation "x ;; z" := (bind x (fun _ => z))
  (at level 100, z at level 200, only parsing, right associativity) : task_scope.

(** JavaScript truthiness of a string: every string but the empty one. *)
Definition truthy (s : string) : bool := negb (String.eqb s "").

(** The effects that open no dialog. *)
Definition dialogless {U : Type} (a : effect U) : Prop :=
  match a with
  | Fire _ => False
  | _ => True
  end.

(** How axios is called: [get(url)] and [delete(url)] with no data,
    [post(url, data)] and [put(url, data)] with an object. *)
Definition bodied (r : request) : Prop :=
  match req_method r, req_body r with
  | (GET | DELETE), NoBody => True
  | (GET | DELETE), _ => False
  | (POST | PUT), NoBody => False
  | (POST | PUT), _ => True
  end.

(** ** The admin panel *)

Module AdminPanel.

Record State := Build {
  projects : list Project.t;
  stages : list Stage.t;
  downloads : list Download.t;
  projectName : string;
  stageName : string;
  downloadName : string;
  downloadDescription : string;
  downloadUrl : string;
  selectedProject : option string
}.

(** [useState("")] and friends: what the component starts with. *)
Definition initial : State := Build [] [] [] "" "" "" "" "" None.

Inductive Update :=
| setProjects (v : list Project.t)
| setStages (v : list Stage.t)
| setDownloads (v : list Download.t)
| setProjectName (v : string)
| setStageName (v : string)
| setDownloadName (v : string)
| setDownloadDescription (v : string)
| setDownloadUrl (v : string)
| setSelectedProject (v : option string).

Definition reduce (u : Update) (s : State) : State :=
  match u with
  | setProjects v =>
      Build v (stages s) (downloads s) (projectName s) (stageName s)
            (downloadName s) (downloadDescription s) (downloadUrl s) (selectedProject s)
  | setStages v =>
      Build (projects s) v (downloads s) (projectName s) (stageName s)
            (downloadName s) (downloadDescription s) (downloadUrl s) (selectedProject s)
  | setDownloads v =>
      Build (projects s) (stages s) v (projectName s) (stageName s)
            (downloadName s) (downloadDescription s) (downloadUrl s) (selectedProject s)
  | setProjectName v =>
      Build (projects s) (stages s) (downloads s) v (stageName s)
            (downloadName s) (downloadDescription s) (downloadUrl s) (selectedProject s)
  | setStageName v =>
      Build (projects s) (stages s) (downloads s) (projectName s) v
            (downloadName s) (downloadDescription s) (downloadUrl s) (selectedProject s)
  | setDownloadName v =>
      Build (projects s) (stages s) (downloads s) (projectName s) (stageName s)
            v (downloadDescription s) (downloadUrl s) (selectedProject s)
  | setDownloadDescription v =>
      Build (projects s) (stages s) (downloads s) (projectName s) (stageName s)
            (downloadName s) v (downloadUrl s) (selectedProject s)
  | setDownloadUrl v =>
      Build (projects s) (stages s) (downloads s) (projectName s) (stageName s)
            (downloadName s) (downloadDescription s) v (selectedProject s)
  | setSelectedProject v =>
      Build (projects s) (stages s) (downloads s) (projectName s) (stageName s)
            (downloadName s) (downloadDescription s) (downloadUrl s) v
  end.

Section Handlers.
Local Open Scope task_scope.

(** [String.prototype.toLowerCase]. *)
Variable toLowerCase : string -> string.

(** The state of the render the handlers close over. *)
Variable st : State.

Definition fetchProjects : task Update unit :=
  try_catch
    (response ← axios GET "https://app-back-99ll.onrender.com/projects" NoBody KProjects;
     setState (setProjects response))
    (fun err => console_error "Error fetching projects:" err).

Definition fetchDownloads : task Update unit :=
  try_catch
    (response ← axios GET "https://app-back-99ll.onrender.com/downloads" NoBody KDownloads;
     setState (setDownloads response))
    (fun err => console_error "Error fetching downloads:" err).

Definition fetchStages : task Update unit :=
  match selectedProject st with
  | Some sel =>
      if truthy sel then
        try_catch
          (response ← axios GET ("https://app-back-99ll.onrender.com/projects/" +:+ sel)
                            NoBody KProject;
           setState (setStages (default [] response)))
          (fun err => console_error "Error fetching stages:" err)
      else setState (setStages [])
  | None => setState (setStages [])
  end.

Definition handleAddProject : task Update unit :=
  if (0 <? String.length (projectName st))%nat then
    let existingProject :=
      List.find (fun p => String.eqb (toLowerCase (Project.projectName p))
                                     (toLowerCase (projectName st)))
                (projects st) in
    match existingProject with
    | Some _ =>
        fire (Alert icon_error "Error"
                    "Project name already exists. Please choose a different name.")
    | None =>
        try_catch
          (axios POST "https://app-back-99ll.onrender.com/projects"
                 (ProjectBody (projectName st) (stages st)) KIgnored;;
           spawn fetchProjects;;
           setState (setProjectName "");;
           setState (setStages []);;
           fire (Alert icon_success "Success" "Project added successfully!"))
          (fun err =>
             console_error "Error adding project:" err;;
             fire (Alert icon_error "Error" "Error adding project. Please try again."))
    end
  else
    fire (Alert icon_error "Error" "Please provide a project name.").

Definition handleAddStage : task Update unit :=
  match selectedProject st with
  | Some sel =>
      if truthy sel && truthy (stageName st) then
        try_catch
          (axios POST ("https://app-back-99ll.onrender.com/projects/stage/" +:+ sel)
                 (NameBody (stageName st)) KIgnored;;
           spawn fetchStages;;
           setState (setStageName "");;
           fire (Alert icon_success "Success" "Stage added successfully!"))
          (fun err =>
             console_error "Error adding stage:" err;;
             fire (Alert icon_error "Error" "Error adding stage. Please try again."))
      else Ret tt
  | None => Ret tt
  end.

Definition handleAddDownload : task Update unit :=
  if truthy (downloadName st) && truthy (downloadDescription st) && truthy (downloadUrl st)
  then
    try_catch
      (axios POST "https://app-back-99ll.onrender.com/downloads"
             (DownloadBody (downloadName st) (downloadDescription st) (downloadUrl st))
             KIgnored;;
       spawn fetchDownloads;;
       setState (setDownloadName "");;
       setState (setDownloadDescription "");;
       setState (setDownloadUrl "");;
       fire (Alert icon_success "Success" "Download added successfully!"))
      (fun err =>
         console_error "Error adding download:" err;;
         fire (Alert icon_error "Error" "Error adding download. Please try again."))
  else Ret tt.

(** The [let newStatus; if ... else if ... else ...] of
    [handleChangeStageStatus]. *)
Definition newStatus (currentStatus : string) : string :=
  if String.eqb currentStatus "ongoing" then "completed"
  else if String.eqb currentStatus "completed" then "incomplete"
  else "ongoing".

Definition handleChangeStageStatus (stageId currentStatus : string) : task Update unit :=
  match selectedProject st with
  | Some sel =>
      if truthy sel then
        try_catch
          (axios PUT ("https://app-back-99ll.onrender.com/projects/stage/"
                        +:+ sel +:+ "/" +:+ stageId)
                 (StatusBody (newStatus currentStatus)) KIgnored;;
           spawn fetchStages)
          (fun err => console_error "Error changing stage status:" err)
      else Ret tt
  | None => Ret tt
  end.

Definition handleDeleteProject (projectId : string) : task Update unit :=
  try_catch
    (axios DELETE ("https://app-back-99ll.onrender.com/projects/" +:+ projectId)
           NoBody KIgnored;;
     spawn fetchProjects;;
     fire (Alert icon_success "Success" "Deleted project successfully"))
    (fun err => console_error "Error deleting project:" err).

Definition handleDeleteStage (stageId : Z) : task Update unit :=
  match selectedProject st with
  | Some sel =>
      if truthy sel then
        try_catch
          (axios DELETE ("https://app-back-99ll.onrender.com/projects/stage/"
                           +:+ sel +:+ "/" +:+ pretty stageId)
                 NoBody KIgnored;;
           spawn fetchStages;;
           fire (Alert icon_success "Success" "Deleted stage successfully"))
          (fun err => console_error "Error deleting stage:" err)
      else Ret tt
  | None => Ret tt
  end.

Definition handleDeleteDownload (downloadId : Z) : task Update unit :=
  try_catch
    (axios DELETE ("https://app-back-99ll.onrender.com/downloads/" +:+ pretty downloadId)
           NoBody KIgnored;;
     spawn fetchDownloads;;
     fire (Alert icon_success "Success" "Deleted download successfully"))
    (fun err => console_error "Error deleting download:" err).

(** [useEffect(() => { fetchProjects(); fetchDownloads(); }, [])] *)
Definition useEffect_mount : task Update unit :=
  spawn fetchProjects;; spawn fetchDownloads.

(** [useEffect(() => { fetchStages(); }, [selectedProject])] *)
Definition useEffect_selectedProject : task Update unit :=
  spawn fetchStages.

(** Everything React can call on the component: the two effects, the
    click handlers and the [onChange] handlers of the inputs. *)
Inductive operation :=
| Mounted
| SelectedProjectChanged
| AddProjectClicked
| AddStageClicked
| AddDownloadClicked
| StageStatusClicked (stageId currentStatus : string)
| DeleteProjectClicked (projectId : string)
| DeleteStageClicked (stageId : Z)
| DeleteDownloadClicked (downloadId : Z)
| ProjectNameChanged (value : string)
| ProjectSelected (value : string)
| StageNameChanged (value : string)
| DownloadNameChanged (value : string)
| DownloadDescriptionChanged (value : string)
| DownloadUrlChanged (value : string).

Definition handler (op : operation) : task Update unit :=
  match op with
  | Mounted => useEffect_mount
  | SelectedProjectChanged => useEffect_selectedProject
  | AddProjectClicked => handleAddProject
  | AddStageClicked => handleAddStage
  | AddDownloadClicked => handleAddDownload
  | StageStatusClicked stageId currentStatus => handleChangeStageStatus stageId currentStatus
  | DeleteProjectClicked projectId => handleDeleteProject projectId
  | DeleteStageClicked stageId => handleDeleteStage stageId
  | DeleteDownloadClicked downloadId => handleDeleteDownload downloadId
  | ProjectNameChanged value => setState (setProjectName value)
  | ProjectSelected value => setState (setSelectedProject (Some value))
  | StageNameChanged value => setState (setStageName value)
  | DownloadNameChanged value => setState (setDownloadName value)
  | DownloadDescriptionChanged value => setState (setDownloadDescription value)
  | DownloadUrlChanged value => setState (setDownloadUrl value)
  end.
End Handlers.

(** React dispatching [op] to the handler of the current render. *)
Definition dispatch (toLowerCase : string -> string) (srv : server)
    (op : operation) (w : world State) :=
  invoke reduce srv (handler toLowerCase (component w) op) w.

(** The status button of a stage row: its [backgroundColor] and its
    text, both chains of [stage.status === ...] tests. *)
Definition statusColor (status : string) : string :=
  if String.eqb status "ongoing" then "rgba(255, 165, 0, 0.5)"
  else if String.eqb status "completed" then "rgba(0, 128, 0, 0.5)"
  else "rgba(128, 128, 128, 0.5)".

Definition statusLabel (status : string) : string :=
  if String.eqb status "ongoing" then "Ongoing"
  else if String.eqb status "completed" then "Completed"
  else "Incomplete".

(** [value={selectedProject || ""}] of the project dropdown. *)
Definition selectValue (st : State) : string :=
  match selectedProject st with
  | Some sel => if truthy sel then sel else ""
  | None => ""
  end.

(** The effects that leave [selectedProject] alone. *)
Definition keeps_selection (a : effect Update) : Prop :=
  match a with
  | SetState (setSelectedProject _) => False
  | _ => True
  end.

End AdminPanel.

(** ** JavaScript arrays *)

(** An array whose slots may hold [undefined]. *)
Abbreviation array A := (list (option A)).

Definition Array_from {A} (l : list A) : array A := Some <$> l.

(** [a.splice(start, 1)] for a natural [start]: the array of removed
    elements and [a] afterwards.  Past the end nothing is removed. *)
Definition splice_out {A} (start : nat) (a : array A) : array A * array A :=
  (take 1 (drop start a), take start a ++ drop (Datatypes.S start) a).

(** [a.splice(start, 0, x)] for a natural [start]: [a] afterwards.  Past
    the end, [x] is appended. *)
Definition splice_in {A} (start : nat) (x : option A) (a : array A) : array A :=
  take start a ++ x :: drop start a.

(** [const [x] = a]: the first slot, [undefined] when there is none. *)
Definition first {A} (a : array A) : option A := default None (head a).

(** ** The public stage view *)

Module DownloadPage.

Record Props := BuildProps {
  projectId : Z;
  projectName : string;
  initialStages : list Stage.t;
  isAdmin : bool
}.

Record State := Build { stages : list Stage.t }.

Definition initial (props : Props) : State := Build (initialStages props).

Inductive Update :=
| setStages (v : list Stage.t).

Definition reduce (u : Update) (s : State) : State :=
  match u with
  | setStages v => Build v
  end.

(** The [result] react-beautiful-dnd passes to [onDragEnd]. *)
Record DraggableLocation := At { index : nat }.
Record DropResult := Drop { source : DraggableLocation; destination : option DraggableLocation }.

(** The [default] branch of the [switch] is out of reach of the three
    statuses. *)
Definition getCardColor (status : Status.t) : string :=
  match status with
  | Status.ongoing => "rgba(255, 165, 0, 0.5)"
  | Status.completed => "rgba(0, 128, 0, 0.5)"
  | Status.incomplete => "rgba(128, 128, 128, 0.5)"
  end.

Section Handlers.
Local Open Scope task_scope.

Variable props : Props.
Variable st : State.

Definition makeApiCall (status : Status.t) (cardId : Z) : task Update unit :=
  axios PUT ("https://app-back-99ll.onrender.com/projects/stage/"
               +:+ pretty (projectId props) +:+ "/" +:+ pretty cardId)
        (StatusBody (Status.to_string status)) KIgnored;;
  Ret tt.

(** [stages.map((stage) => ...)] of [handleStatusChange]. *)
Definition updatedStages (stageId : Z) (status : Status.t) : list Stage.t :=
  (fun stage =>
     if Z.eqb (Stage.id stage) stageId then Stage.with_status stage status else stage)
  <$> stages st.

Definition handleStatusChange (stageId : Z) (status : Status.t) : task Update unit :=
  if negb (isAdmin props) then
    fire (Alert icon_warning "Access Denied" "Only admins can change the status.")
  else
    setState (setStages (updatedStages stageId status));;
    makeApiCall status stageId.

Definition persistOrder (orderedStages : array Stage.t) : task Update unit :=
  try_catch
    (axios PUT ("https://app-back-99ll.onrender.com/reorder/" +:+ pretty (projectId props))
           (StagesBody orderedStages) KIgnored;;
     fire (Alert icon_success "Order Updated"
                 "The stages have been updated successfully!"))
    (fun err =>
       console_error "Error updating stages:" err;;
       fire (Alert icon_error "Update Failed" "There was an error updating the stages.")).

(** The three lines of [onDragEnd] that build [reorderedStages]. *)
Definition reorderedStages (sourceIndex destinationIndex : nat) : array Stage.t :=
  let copy := Array_from (stages st) in
  let '(removed, rest) := splice_out sourceIndex copy in
  let movedStage := first removed in
  splice_in destinationIndex movedStage rest.

Definition onDragEnd (result : DropResult) : task Update unit :=
  match destination result with
  | None => Ret tt
  | Some dest =>
      if negb (isAdmin props) then
        fire (Alert icon_warning "Access Denied" "Only admins can rearrange the stages.")
      else
        persistOrder (reorderedStages (index (source result)) (index dest))
  end.

(** The mount effect: [localStorage.setItem("lastPage", ...)] and what
    follows it. *)
Definition useEffect_mount : task Update unit :=
  here ← location_href;
  setItem "lastPage" here;;
  lastPage ← getItem "lastPage";
  match lastPage with
  | Some page => if truthy page then replaceState page else Ret tt
  | None => Ret tt
  end.

Inductive operation :=
| Mounted
| StatusSelected (stageId : Z) (status : Status.t)
| DragEnded (result : DropResult).

Definition handler (op : operation) : task Update unit :=
  match op with
  | Mounted => useEffect_mount
  | StatusSelected stageId status => handleStatusChange stageId status
  | DragEnded result => onDragEnd result
  end.
End Handlers.

Definition dispatch (props : Props) (srv : server) (op : operation) (w : world State) :=
  invoke reduce srv (handler props (component w) op) w.

(** What [stages.map((stage, index) => ...)] renders for one stage: the
    fragment's key, the [Draggable], the [Select], the [Badge], the card
    and whether an arrow follows. *)
Record Card := BuildCard {
  card_key : Z;
  card_draggableId : string;
  card_index : nat;
  card_value : Status.t;
  card_selectColor : string;
  card_badge : nat;
  card_color : string;
  card_text : string;
  card_arrow : bool
}.

Definition render (st : State) : list Card :=
  imap (fun index stage =>
          {| card_key := Stage.id stage;
             card_draggableId := pretty (Stage.id stage);
             card_index := index;
             card_value := Stage.status stage;
             card_selectColor := getCardColor (Stage.status stage);
             card_badge := index + 1;
             card_color := getCardColor (Stage.status stage);
             card_text := Stage.name stage;
             card_arrow := Z.ltb (Z.of_nat index) (Z.of_nat (length (stages st)) - 1) |})
       (stages st).

(** [onChange] of the [Select] of a card. *)
Definition onChange (card : Card) (value : Status.t) : operation :=
  StatusSelected (card_key card) value.

End DownloadPage.

(** ** Test data *)

Module Sample.
(** Lower-casing of the ASCII letters, for running examples. *)
Definition lower_ascii (c : ascii) : ascii :=
  let n := nat_of_ascii c in
  if ((65 <=? n) && (n <=? 90))%nat then ascii_of_nat (n + 32) else c.

Fixpoint toLowerCase (s : string) : string :=
  match s with
  | EmptyString => EmptyString
  | String c s' => String (lower_ascii c) (toLowerCase s')
  end.

Definition design : Stage.t := Stage.Build 1 "Design" Status.completed 0.
Definition build : Stage.t := Stage.Build 2 "Build" Status.ongoing 1.
Definition ship : Stage.t := Stage.Build 3 "Ship" Status.incomplete 2.

Definition alpha : Project.t := Project.Build "p1" "Alpha".
Definition beta : Project.t := Project.Build "p2" "Beta".

Definition manual : Download.t := Download.Build 7 "Manual" "User manual" "https://example.org/m.pdf".

(** A server that accepts everything. *)
Definition up : server := fun _ _ T =>
  match T with
  | KProjects => Resolved (T := KProjects) [alpha; beta]
  | KProject => Resolved (T := KProject) (Some [design; build])
  | KDownloads => Resolved (T := KDownloads) [manual]
  | KIgnored => Resolved (T := KIgnored) tt
  end.

(** A server that is unreachable. *)
Definition down : server := fun _ _ _ => Failed "Network Error".

(** A server that accepts the first request and then goes away. *)
Definition flaky : server := fun n r T =>
  match n with O => up n r T | _ => down n r T end.

(** The admin panel with [entered] typed into the project name field. *)
Definition admin (entered : string) : world AdminPanel.State :=
  World (AdminPanel.Build [alpha] [design] [] entered "Review" "Manual" "User manual"
                          "https://example.org/m.pdf" (Some "p1"))
        ∅ "https://app.example/admin" 0.

Definition page (isAdmin : bool) : DownloadPage.Props :=
  DownloadPage.BuildProps 5 "Alpha" [design; build; ship] isAdmin.

Definition public (isAdmin : bool) : world DownloadPage.State :=
  World (DownloadPage.initial (page isAdmin)) ∅ "https://app.example/p/5" 0.

(** The admin panel as it is first rendered: nothing fetched, nothing
    typed, nothing selected. *)
Definition blank : world AdminPanel.State :=
  World AdminPanel.initial ∅ "https://app.example/admin" 0.

(** The public view after "Design" was dragged to the end and the page
    loaded again. *)
Definition reordered : DownloadPage.State := DownloadPage.Build [build; ship; design].
End Sample.

(** * Properties *)

(** ** The runtime *)

Section Confinement.
Context {S U : Type} (reduce : U -> S -> S) (srv : server).
Variable allow_effect : effect U -> Prop.
Variable allow_request : request -> Prop.
Variable allow_throw : failure -> Prop.

Local Abbreviation ok := (allowed allow_effect allow_request allow_throw).
Local Abbreviation confined := (within allow_effect allow_request allow_throw).

Lemma settle_allowed {A} (r : world S * list (event U) * outcome A) :
  Forall ok r.1.2 ->
  (forall e, r.2 = Rejected e -> allow_throw e) ->
  Forall ok (settle r).2.
Proof.
  destruct r as [[w evs] [a|e]]; simpl; intros Hevs Hthrow; [done|].
  apply Forall_app; split; [done|].
  constructor; [|constructor]. by apply Hthrow.
Qed.

Lemma run_start_within {A} (t : task U A) :
  confined t ->
  (forall w, Forall ok (run reduce srv t w).1.2 /\
             forall e, (run reduce srv t w).2 = Rejected e -> allow_throw e) /\
  (forall w, Forall ok (start reduce srv t w).1.2 /\
             forall w', Forall ok ((start reduce srv t w).2 w').2).
Proof.
  induction t as [A a|A e|A a k IH|A key k IH|A k IH|A r T k IH|A c IHc k IHk];
    simpl; intros Hin.
  - repeat split; try constructor. intros e; discriminate.
  - repeat split; try constructor; try done. intros e' [= <-]; done.
  - destruct Hin as [Ha Hk]. destruct (IH Hk) as [IHr IHs]. split; intros w.
    + specialize (IHr (perform reduce a w)).
      destruct (run reduce srv k (perform reduce a w)) as [[w' evs] o]; simpl in *.
      destruct IHr; split; [by constructor|done].
    + specialize (IHs (perform reduce a w)).
      destruct (start reduce srv k (perform reduce a w)) as [[w' evs] later]; simpl in *.
      destruct IHs; split; [by constructor|done].
  - split; intros w; apply (IH _ (Hin _)).
  - split; intros w; apply (IH _ (Hin _)).
  - destruct Hin as [Hr Hk]. split; intros w.
    + destruct (IH _ (Hk (srv (sent w) r T))) as [IHr _]. specialize (IHr (send w)).
      destruct (run reduce srv (k (srv (sent w) r T)) (send w)) as [[w' evs] o]; simpl in *.
      destruct IHr; split; [by constructor|done].
    + split; [by repeat constructor|]. intros w'.
      destruct (IH _ (Hk (srv (sent w) r T))) as [IHr _]. specialize (IHr w').
      apply settle_allowed; apply IHr.
  - destruct Hin as [Hc Hk].
    destruct (IHc Hc) as [_ IHcs]. destruct (IHk Hk) as [IHkr IHks]. split; intros w.
    + specialize (IHcs w).
      destruct (start reduce srv c w) as [[w1 evs1] later]; simpl in *.
      destruct IHcs as [H1 Hlater]. specialize (IHkr w1).
      destruct (run reduce srv k w1) as [[w2 evs2] o]; simpl in *.
      destruct IHkr as [H2 Ho]. specialize (Hlater w2).
      destruct (later w2) as [w3 evs3]; simpl in *.
      split; [|done]. by rewrite !Forall_app.
    + specialize (IHcs w).
      destruct (start reduce srv c w) as [[w1 evs1] later1]; simpl in *.
      destruct IHcs as [H1 Hlater1]. specialize (IHks w1).
      destruct (start reduce srv k w1) as [[w2 evs2] later2]; simpl in *.
      destruct IHks as [H2 Hlater2].
      split; [by rewrite Forall_app|]. intros w'. specialize (Hlater1 w').
      destruct (later1 w') as [w3 evs3]; simpl in *. specialize (Hlater2 w3).
      destruct (later2 w3) as [w4 evs4]; simpl in *. by rewrite Forall_app.
Qed.

(** Whatever a confined task is invoked on and whatever the server
    replies, its trace holds allowed events only. *)
Lemma invoke_within (t : task U unit) (w : world S) :
  confined t -> Forall ok (trace (invoke reduce srv t w)).
Proof.
  intros Hin. destruct (run_start_within t Hin) as [_ Hs]. specialize (Hs w).
  unfold invoke, trace. destruct (start reduce srv t w) as [[w1 evs1] later]; simpl in *.
  destruct Hs as [H1 Hlater]. specialize (Hlater w1).
  destruct (later w1) as [w2 evs2]; simpl in *. by rewrite Forall_app.
Qed.
End Confinement.

Section Replay.
Context {S U : Type} (reduce : U -> S -> S) (srv : server).

Lemma settle_replay {A} (r : world S * list (event U) * outcome A) (w : world S) :
  r.1.1 = replay reduce w r.1.2 ->
  (settle r).1 = replay reduce w (settle r).2.
Proof.
  destruct r as [[w' evs] [a|e]]; simpl; [done|].
  intros ->. unfold replay. by rewrite foldl_app.
Qed.

Lemma run_start_replay {A} (t : task U A) :
  (forall w, (run reduce srv t w).1.1 = replay reduce w (run reduce srv t w).1.2) /\
  (forall w, (start reduce srv t w).1.1 = replay reduce w (start reduce srv t w).1.2 /\
             forall w', ((start reduce srv t w).2 w').1
                        = replay reduce w' ((start reduce srv t w).2 w').2).
Proof.
  induction t as [A a|A e|A a k IH|A key k IH|A k IH|A r T k IH|A c IHc k IHk]; simpl.
  - done.
  - done.
  - destruct IH as [IHr IHs]. split; intros w.
    + specialize (IHr (perform reduce a w)).
      by destruct (run reduce srv k (perform reduce a w)) as [[w' evs] o].
    + specialize (IHs (perform reduce a w)).
      by destruct (start reduce srv k (perform reduce a w)) as [[w' evs] later].
  - split; intros w; apply IH.
  - split; intros w; apply IH.
  - split; intros w.
    + destruct (IH (srv (sent w) r T)) as [IHr _]. specialize (IHr (send w)).
      by destruct (run reduce srv (k (srv (sent w) r T)) (send w)) as [[w' evs] o].
    + split; [done|]. intros w'. apply settle_replay, IH.
  - destruct IHc as [_ IHcs]. destruct IHk as [IHkr IHks]. split; intros w.
    + specialize (IHcs w).
      destruct (start reduce srv c w) as [[w1 evs1] later]; simpl in *.
      destruct IHcs as [-> Hlater]. specialize (IHkr (replay reduce w evs1)).
      destruct (run reduce srv k (replay reduce w evs1)) as [[w2 evs2] o]; simpl in *.
      specialize (Hlater w2). destruct (later w2) as [w3 evs3]; simpl in *.
      subst. unfold replay. by rewrite !foldl_app.
    + specialize (IHcs w).
      destruct (start reduce srv c w) as [[w1 evs1] later1]; simpl in *.
      destruct IHcs as [-> Hlater1]. specialize (IHks (replay reduce w evs1)).
      destruct (start reduce srv k (replay reduce w evs1)) as [[w2 evs2] later2]; simpl in *.
      destruct IHks as [-> Hlater2]. split.
      * unfold replay. by rewrite foldl_app.
      * intros w'. specialize (Hlater1 w').
        destruct (later1 w') as [w3 evs3]; simpl in *. specialize (Hlater2 w3).
        destruct (later2 w3) as [w4 evs4]; simpl in *.
        subst. unfold replay. by rewrite foldl_app.
Qed.

(** The world after a handler ran is the world before, changed by the
    events of its trace in their order. *)
Lemma invoke_replay (t : task U unit) (w : world S) :
  final (invoke reduce srv t w) = replay reduce w (trace (invoke reduce srv t w)).
Proof.
  destruct (run_start_replay t) as [_ Hs]. specialize (Hs w).
  unfold invoke, final, trace.
  destruct (start reduce srv t w) as [[w1 evs1] later]; simpl in *.
  destruct Hs as [-> Hlater]. specialize (Hlater (replay reduce w evs1)).
  destruct (later (replay reduce w evs1)) as [w2 evs2]; simpl in *.
  subst. unfold replay. by rewrite foldl_app.
Qed.
End Replay.

(** ** Strings *)

Lemma truthy_nonempty (s : string) : s <> "" -> truthy s = true.
Proof. by destruct s. Qed.

Lemma length_nonempty (s : string) : s <> "" -> (0 <? String.length s)%nat = true.
Proof. by destruct s. Qed.

(** Picks the constructor of [documented] a request is an instance of. *)
Ltac endpoint :=
  lazymatch goal with
  | |- documented (Request GET "https://app-back-99ll.onrender.com/projects" ?b) =>
      exact (get_projects b)
  | |- documented (Request POST "https://app-back-99ll.onrender.com/projects" ?b) =>
      exact (post_projects b)
  | |- documented (Request GET "https://app-back-99ll.onrender.com/downloads" ?b) =>
      exact (get_downloads b)
  | |- documented (Request POST "https://app-back-99ll.onrender.com/downloads" ?b) =>
      exact (post_downloads b)
  | |- documented (Request GET ("https://app-back-99ll.onrender.com/projects/" +:+ ?id) ?b) =>
      exact (get_project id b)
  | |- documented (Request DELETE ("https://app-back-99ll.onrender.com/projects/" +:+ ?id) ?b) =>
      exact (delete_project id b)
  | |- documented (Request DELETE ("https://app-back-99ll.onrender.com/downloads/" +:+ ?id) ?b) =>
      exact (delete_download id b)
  | |- documented (Request POST ("https://app-back-99ll.onrender.com/projects/stage/" +:+ ?id)
                           ?b) =>
      exact (post_stage id b)
  | |- documented (Request PUT ("https://app-back-99ll.onrender.com/projects/stage/"
                                  +:+ ?p +:+ "/" +:+ ?s) ?b) =>
      exact (put_stage p s b)
  | |- documented (Request DELETE ("https://app-back-99ll.onrender.com/projects/stage/"
                                     +:+ ?p +:+ "/" +:+ ?s) ?b) =>
      exact (delete_stage p s b)
  | |- documented (Request PUT ("https://app-back-99ll.onrender.com/reorder/" +:+ ?p) ?b) =>
      exact (put_reorder p b)
  end.

(** Walks a task tree, one reply at a time. *)
Ltac confine :=
  repeat first
    [ progress simpl
    | split
    | progress intros
    | exact I
    | endpoint
    | match goal with rep : reply _ |- _ => destruct rep end
    | match goal with |- within _ _ _ (if ?b then _ else _) => destruct b end
    | match goal with |- within _ _ _ (match ?v with _ => _ end) => destruct v end ].

(** Case analysis on the next reply the trace depends on. *)
Ltac reply :=
  match goal with
  | |- context [match ?srv ?n ?r ?T with Resolved _ => _ | Failed _ => _ end] =>
      destruct (srv n r T) eqn:?; simpl
  end.

(** Uses what is known about a reply. *)
Ltac replied H := rewrite ?H; simpl.

(** Keeps the first event of a trace and forgets how it goes on. *)
Ltac first_event :=
  simpl;
  match goal with
  | |- context [settle ?r] => destruct (settle r) as [? ?]
  end;
  by eexists.

(** ** The admin panel *)

Module AdminPanelSpec.
Import AdminPanel.

Ltac handlers :=
  unfold dispatch, invoke, handler, trace, final,
    handleAddProject, handleAddStage, handleAddDownload, handleChangeStageStatus,
    handleDeleteProject, handleDeleteStage, handleDeleteDownload,
    useEffect_mount, useEffect_selectedProject,
    fetchProjects, fetchStages, fetchDownloads in *.

Ltac branch :=
  repeat match goal with
    | |- context [match selectedProject ?st with _ => _ end] => destruct (selectedProject st)
    | |- context [match List.find ?f ?l with _ => _ end] => destruct (List.find f l)
    | |- context [if ?b then _ else _] => destruct b
    end.

(** *** Sample runs *)

(** The server accepts the POST and is gone when the list is fetched
    again: the success dialog is up before the failed GET is noticed. *)
Example addProject_then_server_away :
  trace (dispatch Sample.toLowerCase Sample.flaky AddProjectClicked (Sample.admin "Gamma"))
  = [Requested (Request POST "https://app-back-99ll.onrender.com/projects"
                        (ProjectBody "Gamma" [Sample.design]));
     Requested (Request GET "https://app-back-99ll.onrender.com/projects" NoBody);
     Performed (SetState (setProjectName ""));
     Performed (SetState (setStages []));
     Performed (Fire (Alert icon_success "Success" "Project added successfully!"));
     Performed (ConsoleError "Error fetching projects:" "Network Error")].
Proof. reflexivity. Qed.

Example mount_fetches_both :
  trace (dispatch Sample.toLowerCase Sample.up Mounted (Sample.admin ""))
  = [Requested (Request GET "https://app-back-99ll.onrender.com/projects" NoBody);
     Requested (Request GET "https://app-back-99ll.onrender.com/downloads" NoBody);
     Performed (SetState (setProjects [Sample.alpha; Sample.beta]));
     Performed (SetState (setDownloads [Sample.manual]))].
Proof. reflexivity. Qed.

(** *** The uniqueness check of [handleAddProject] *)

Section Uniqueness.
Variable toLowerCase : string -> string.
Variable entered : string.
Variable projects : list Project.t.

Let same_name (q : Project.t) : bool :=
  String.eqb (toLowerCase (Project.projectName q)) (toLowerCase entered).

Lemma find_duplicate (p : Project.t) :
  p ∈ projects ->
  toLowerCase (Project.projectName p) = toLowerCase entered ->
  is_Some (List.find same_name projects).
Proof.
  intros Hp Heq.
  destruct (List.find same_name projects) eqn:Hfind; [by eexists|].
  apply list_elem_of_In in Hp.
  pose proof (List.find_none _ _ Hfind _ Hp) as Hno. unfold same_name in Hno.
  rewrite Heq, String.eqb_refl in Hno. discriminate.
Qed.

Lemma find_fresh :
  (forall p, p ∈ projects ->
             toLowerCase (Project.projectName p) <> toLowerCase entered) ->
  List.find same_name projects = None.
Proof.
  intros Hfresh. destruct (List.find same_name projects) as [q|] eqn:Hfind; [|done].
  apply List.find_some in Hfind as [Hq Heq]. apply list_elem_of_In in Hq.
  apply String.eqb_eq in Heq. by destruct (Hfresh q Hq).
Qed.
End Uniqueness.

(** C1.  Adding a project whose name equals, case-insensitively, the name of
    a project already fetched is rejected: the one thing that happens is
    an error dialog; no request is sent and the state, the list of
    projects included, stays as it was. *)
Theorem C1_duplicate_name_rejected (toLowerCase : string -> string) (srv : server)
    (w : world State) (p : Project.t) :
  p ∈ projects (component w) ->
  toLowerCase (Project.projectName p) = toLowerCase (projectName (component w)) ->
  let r := dispatch toLowerCase srv AddProjectClicked w in
  trace r = [Performed (Fire (Alert icon_error "Error"
               (if truthy (projectName (component w))
                then "Project name already exists. Please choose a different name."
                else "Please provide a project name.")))] /\
  requests (trace r) = [] /\
  projects (component (final r)) = projects (component w) /\
  final r = w.
Proof.
  intros Hp Heq.
  destruct (find_duplicate toLowerCase _ _ _ Hp Heq) as [q Hq].
  handlers. rewrite Hq.
  by destruct (projectName (component w)) as [|c name].
Qed.

Lemma C1_duplicate_name_rejected_witness :
  let w := Sample.admin "ALPHA" in
  let r := dispatch Sample.toLowerCase Sample.up AddProjectClicked w in
  Sample.alpha ∈ projects (component w) /\
  trace r = [Performed (Fire (Alert icon_error "Error"
               "Project name already exists. Please choose a different name."))] /\
  requests (trace r) = [] /\
  projects (component (final r)) = [Sample.alpha] /\
  final r = w.
Proof.
  assert (Sample.alpha ∈ projects (component (Sample.admin "ALPHA"))) as Hin
    by (simpl; left).
  split; [exact Hin|].
  apply (C1_duplicate_name_rejected Sample.toLowerCase Sample.up (Sample.admin "ALPHA")
           Sample.alpha Hin).
  reflexivity.
Defined.

(** C2.  With an empty project name [handleAddProject] only opens the
    dialog that asks for one: no request, no state change.  With a name
    that is not empty and not taken, the first thing it does is the POST
    to /projects, carrying the name and the stages. *)
Theorem C2_name_required (toLowerCase : string -> string) (srv : server)
    (w : world State) :
  let st := component w in
  let r := dispatch toLowerCase srv AddProjectClicked w in
  (String.length (projectName st) = 0%nat ->
   trace r = [Performed (Fire (Alert icon_error "Error" "Please provide a project name."))] /\
   requests (trace r) = [] /\
   final r = w) /\
  (projectName st <> "" ->
   (forall p, p ∈ projects st ->
              toLowerCase (Project.projectName p) <> toLowerCase (projectName st)) ->
   exists rest,
     trace r = Requested (Request POST "https://app-back-99ll.onrender.com/projects"
                                  (ProjectBody (projectName st) (stages st))) :: rest).
Proof.
  split.
  - intros Hlen. handlers. by rewrite Hlen.
  - intros Hne Hfresh. handlers.
    rewrite (length_nonempty _ Hne), (find_fresh _ _ _ Hfresh). first_event.
Qed.

Lemma C2_name_required_witness :
  (let r := dispatch Sample.toLowerCase Sample.up AddProjectClicked (Sample.admin "") in
   trace r = [Performed (Fire (Alert icon_error "Error" "Please provide a project name."))] /\
   requests (trace r) = [] /\
   final r = Sample.admin "") /\
  (let r := dispatch Sample.toLowerCase Sample.up AddProjectClicked (Sample.admin "Gamma") in
   exists rest,
     trace r = Requested (Request POST "https://app-back-99ll.onrender.com/projects"
                                  (ProjectBody "Gamma" [Sample.design])) :: rest).
Proof.
  split.
  - apply (C2_name_required Sample.toLowerCase Sample.up (Sample.admin "")). reflexivity.
  - apply (C2_name_required Sample.toLowerCase Sample.up (Sample.admin "Gamma")).
    + discriminate.
    + intros p Hp. apply list_elem_of_singleton in Hp as ->. discriminate.
Defined.

(** *** The status toggle *)

Lemma newStatus_cycle (s : Status.t) :
  newStatus (newStatus (newStatus (Status.to_string s))) = Status.to_string s.
Proof. by destruct s. Qed.

Lemma newStatus_other (s : string) :
  s <> "ongoing" -> s <> "completed" -> newStatus s = "ongoing".
Proof.
  intros H1 H2. unfold newStatus.
  destruct (String.eqb_spec s "ongoing"); [done|].
  by destruct (String.eqb_spec s "completed").
Qed.

(** C9.  With a project selected, [handleChangeStageStatus] sends the status
    [newStatus currentStatus], where [newStatus] takes "ongoing" to
    "completed", "completed" to "incomplete" and anything else,
    "incomplete" included, to "ongoing"; three steps from any of the
    three statuses lead back to it. *)
Theorem C9_status_cycle (toLowerCase : string -> string) (srv : server) (w : world State)
    (stageId currentStatus : string) :
  (forall sel,
     selectedProject (component w) = Some sel ->
     sel <> "" ->
     exists rest,
       trace (dispatch toLowerCase srv (StageStatusClicked stageId currentStatus) w)
       = Requested (Request PUT ("https://app-back-99ll.onrender.com/projects/stage/"
                                   +:+ sel +:+ "/" +:+ stageId)
                            (StatusBody (newStatus currentStatus))) :: rest) /\
  newStatus "ongoing" = "completed" /\
  newStatus "completed" = "incomplete" /\
  newStatus "incomplete" = "ongoing" /\
  (currentStatus = "ongoing" \/ currentStatus = "completed" \/
   newStatus currentStatus = "ongoing") /\
  (forall s : Status.t,
     newStatus (newStatus (newStatus (Status.to_string s))) = Status.to_string s).
Proof.
  split; [|repeat split].
  - intros sel Hsel Hne. handlers. rewrite Hsel, (truthy_nonempty _ Hne). first_event.
  - destruct (String.eqb_spec currentStatus "ongoing"); [by left|].
    destruct (String.eqb_spec currentStatus "completed"); [by right; left|].
    right; right. by apply newStatus_other.
  - apply newStatus_cycle.
Qed.

Lemma C9_status_cycle_witness :
  exists rest,
    trace (dispatch Sample.toLowerCase Sample.up (StageStatusClicked "2" "paused")
                    (Sample.admin ""))
    = Requested (Request PUT "https://app-back-99ll.onrender.com/projects/stage/p1/2"
                         (StatusBody "ongoing")) :: rest.
Proof.
  apply (proj1 (C9_status_cycle Sample.toLowerCase Sample.up (Sample.admin "") "2" "paused")
               "p1").
  - reflexivity.
  - discriminate.
Defined.

(** *** Create and delete, then fetch again *)

Section Refetch.
Variable toLowerCase : string -> string.
Variable srv : server.
Variable w : world State.

Let st := component w.
Let accepted : reply KIgnored := Resolved (T := KIgnored) tt.

Lemma addProject_refetch :
  let post := Request POST "https://app-back-99ll.onrender.com/projects"
                      (ProjectBody (projectName st) (stages st)) in
  let get := Request GET "https://app-back-99ll.onrender.com/projects" NoBody in
  let r := dispatch toLowerCase srv AddProjectClicked w in
  projectName st <> "" ->
  (forall p, p ∈ projects st ->
             toLowerCase (Project.projectName p) <> toLowerCase (projectName st)) ->
  srv (sent w) post KIgnored = accepted ->
  requests (trace r) = [post; get] /\
  projects (component (final r))
  = match srv (Datatypes.S (sent w)) get KProjects with
    | Resolved listed => listed
    | Failed _ => projects st
    end.
Proof.
  intros post get r Hne Hfresh Hpost. subst st post get r. handlers.
  rewrite (length_nonempty _ Hne), (find_fresh _ _ _ Hfresh). simpl.
  replied Hpost. by reply.
Qed.

Lemma deleteProject_refetch (projectId : string) :
  let del := Request DELETE ("https://app-back-99ll.onrender.com/projects/" +:+ projectId)
                     NoBody in
  let get := Request GET "https://app-back-99ll.onrender.com/projects" NoBody in
  let r := dispatch toLowerCase srv (DeleteProjectClicked projectId) w in
  srv (sent w) del KIgnored = accepted ->
  requests (trace r) = [del; get] /\
  projects (component (final r))
  = match srv (Datatypes.S (sent w)) get KProjects with
    | Resolved listed => listed
    | Failed _ => projects st
    end.
Proof.
  intros del get r Hdel. subst st del get r. handlers. simpl.
  replied Hdel. by reply.
Qed.

Lemma addStage_refetch (sel : string) :
  let post := Request POST ("https://app-back-99ll.onrender.com/projects/stage/" +:+ sel)
                      (NameBody (stageName st)) in
  let get := Request GET ("https://app-back-99ll.onrender.com/projects/" +:+ sel) NoBody in
  let r := dispatch toLowerCase srv AddStageClicked w in
  selectedProject st = Some sel -> sel <> "" -> stageName st <> "" ->
  srv (sent w) post KIgnored = accepted ->
  requests (trace r) = [post; get] /\
  stages (component (final r))
  = match srv (Datatypes.S (sent w)) get KProject with
    | Resolved fetched => default [] fetched
    | Failed _ => stages st
    end.
Proof.
  intros post get r Hsel Hne Hname Hpost. subst st post get r. handlers.
  rewrite Hsel, (truthy_nonempty _ Hne), (truthy_nonempty _ Hname). simpl.
  replied Hpost. by reply.
Qed.

Lemma deleteStage_refetch (sel : string) (stageId : Z) :
  let del := Request DELETE ("https://app-back-99ll.onrender.com/projects/stage/"
                               +:+ sel +:+ "/" +:+ pretty stageId) NoBody in
  let get := Request GET ("https://app-back-99ll.onrender.com/projects/" +:+ sel) NoBody in
  let r := dispatch toLowerCase srv (DeleteStageClicked stageId) w in
  selectedProject st = Some sel -> sel <> "" ->
  srv (sent w) del KIgnored = accepted ->
  requests (trace r) = [del; get] /\
  stages (component (final r))
  = match srv (Datatypes.S (sent w)) get KProject with
    | Resolved fetched => default [] fetched
    | Failed _ => stages st
    end.
Proof.
  intros del get r Hsel Hne Hdel. subst st del get r. handlers.
  rewrite Hsel, (truthy_nonempty _ Hne). simpl.
  replied Hdel. by reply.
Qed.

Lemma addDownload_refetch :
  let post := Request POST "https://app-back-99ll.onrender.com/downloads"
                      (DownloadBody (downloadName st) (downloadDescription st)
                                    (downloadUrl st)) in
  let get := Request GET "https://app-back-99ll.onrender.com/downloads" NoBody in
  let r := dispatch toLowerCase srv AddDownloadClicked w in
  downloadName st <> "" -> downloadDescription st <> "" -> downloadUrl st <> "" ->
  srv (sent w) post KIgnored = accepted ->
  requests (trace r) = [post; get] /\
  downloads (component (final r))
  = match srv (Datatypes.S (sent w)) get KDownloads with
    | Resolved listed => listed
    | Failed _ => downloads st
    end.
Proof.
  intros post get r Hname Hdesc Hurl Hpost. subst st post get r. handlers.
  rewrite (truthy_nonempty _ Hname), (truthy_nonempty _ Hdesc), (truthy_nonempty _ Hurl).
  simpl. replied Hpost. by reply.
Qed.

Lemma deleteDownload_refetch (downloadId : Z) :
  let del := Request DELETE ("https://app-back-99ll.onrender.com/downloads/"
                               +:+ pretty downloadId) NoBody in
  let get := Request GET "https://app-back-99ll.onrender.com/downloads" NoBody in
  let r := dispatch toLowerCase srv (DeleteDownloadClicked downloadId) w in
  srv (sent w) del KIgnored = accepted ->
  requests (trace r) = [del; get] /\
  downloads (component (final r))
  = match srv (Datatypes.S (sent w)) get KDownloads with
    | Resolved listed => listed
    | Failed _ => downloads st
    end.
Proof.
  intros del get r Hdel. subst st del get r. handlers. simpl.
  replied Hdel. by reply.
Qed.
End Refetch.

(** C6.  A create or delete whose request the server accepts sends exactly
    two requests, the mutation and then the GET of the list it affects:
    /projects for [handleAddProject] and [handleDeleteProject], the
    selected project for [handleAddStage] and [handleDeleteStage],
    /downloads for [handleAddDownload] and [handleDeleteDownload].  The
    list shown afterwards is the one the server sent back (the old one if
    that GET fails); it is not put together locally. *)
Theorem C6_refetch_after_mutation (toLowerCase : string -> string) (srv : server)
    (w : world State) :
  let st := component w in
  let accepted := Resolved (T := KIgnored) tt in
  let after (op : operation) := dispatch toLowerCase srv op w in
  let get_projects := Request GET "https://app-back-99ll.onrender.com/projects" NoBody in
  let get_downloads := Request GET "https://app-back-99ll.onrender.com/downloads" NoBody in
  let get_stages (sel : string) :=
    Request GET ("https://app-back-99ll.onrender.com/projects/" +:+ sel) NoBody in
  let listed_projects :=
    match srv (Datatypes.S (sent w)) get_projects KProjects with
    | Resolved listed => listed
    | Failed _ => projects st
    end in
  let listed_downloads :=
    match srv (Datatypes.S (sent w)) get_downloads KDownloads with
    | Resolved listed => listed
    | Failed _ => downloads st
    end in
  let listed_stages (sel : string) :=
    match srv (Datatypes.S (sent w)) (get_stages sel) KProject with
    | Resolved fetched => default [] fetched
    | Failed _ => stages st
    end in
  (forall post,
     post = Request POST "https://app-back-99ll.onrender.com/projects"
                    (ProjectBody (projectName st) (stages st)) ->
     projectName st <> "" ->
     (forall p, p ∈ projects st ->
                toLowerCase (Project.projectName p) <> toLowerCase (projectName st)) ->
     srv (sent w) post KIgnored = accepted ->
     requests (trace (after AddProjectClicked)) = [post; get_projects] /\
     projects (component (final (after AddProjectClicked))) = listed_projects) /\
  (forall projectId del,
     del = Request DELETE ("https://app-back-99ll.onrender.com/projects/" +:+ projectId)
                   NoBody ->
     srv (sent w) del KIgnored = accepted ->
     requests (trace (after (DeleteProjectClicked projectId))) = [del; get_projects] /\
     projects (component (final (after (DeleteProjectClicked projectId))))
     = listed_projects) /\
  (forall sel post,
     post = Request POST ("https://app-back-99ll.onrender.com/projects/stage/" +:+ sel)
                    (NameBody (stageName st)) ->
     selectedProject st = Some sel -> sel <> "" -> stageName st <> "" ->
     srv (sent w) post KIgnored = accepted ->
     requests (trace (after AddStageClicked)) = [post; get_stages sel] /\
     stages (component (final (after AddStageClicked))) = listed_stages sel) /\
  (forall sel stageId del,
     del = Request DELETE ("https://app-back-99ll.onrender.com/projects/stage/"
                             +:+ sel +:+ "/" +:+ pretty stageId) NoBody ->
     selectedProject st = Some sel -> sel <> "" ->
     srv (sent w) del KIgnored = accepted ->
     requests (trace (after (DeleteStageClicked stageId))) = [del; get_stages sel] /\
     stages (component (final (after (DeleteStageClicked stageId))))
     = listed_stages sel) /\
  (forall post,
     post = Request POST "https://app-back-99ll.onrender.com/downloads"
                    (DownloadBody (downloadName st) (downloadDescription st)
                                  (downloadUrl st)) ->
     downloadName st <> "" -> downloadDescription st <> "" -> downloadUrl st <> "" ->
     srv (sent w) post KIgnored = accepted ->
     requests (trace (after AddDownloadClicked)) = [post; get_downloads] /\
     downloads (component (final (after AddDownloadClicked))) = listed_downloads) /\
  (forall downloadId del,
     del = Request DELETE ("https://app-back-99ll.onrender.com/downloads/"
                             +:+ pretty downloadId) NoBody ->
     srv (sent w) del KIgnored = accepted ->
     requests (trace (after (DeleteDownloadClicked downloadId))) = [del; get_downloads] /\
     downloads (component (final (after (DeleteDownloadClicked downloadId))))
     = listed_downloads).
Proof.
  cbv zeta. split; [|split; [|split; [|split; [|split]]]].
  - intros post ->. apply addProject_refetch.
  - intros projectId del ->. apply deleteProject_refetch.
  - intros sel post ->. apply addStage_refetch.
  - intros sel stageId del ->. apply deleteStage_refetch.
  - intros post ->. apply addDownload_refetch.
  - intros downloadId del ->. apply deleteDownload_refetch.
Qed.

Lemma C6_refetch_after_mutation_witness :
  let w := Sample.admin "Gamma" in
  let after (op : operation) := dispatch Sample.toLowerCase Sample.up op w in
  let get_projects := Request GET "https://app-back-99ll.onrender.com/projects" NoBody in
  let get_downloads := Request GET "https://app-back-99ll.onrender.com/downloads" NoBody in
  let get_stages := Request GET "https://app-back-99ll.onrender.com/projects/p1" NoBody in
  (requests (trace (after AddProjectClicked))
   = [Request POST "https://app-back-99ll.onrender.com/projects"
              (ProjectBody "Gamma" [Sample.design]); get_projects] /\
   projects (component (final (after AddProjectClicked))) = [Sample.alpha; Sample.beta]) /\
  (requests (trace (after (DeleteProjectClicked "p1")))
   = [Request DELETE "https://app-back-99ll.onrender.com/projects/p1" NoBody; get_projects] /\
   projects (component (final (after (DeleteProjectClicked "p1"))))
   = [Sample.alpha; Sample.beta]) /\
  (requests (trace (after AddStageClicked))
   = [Request POST "https://app-back-99ll.onrender.com/projects/stage/p1" (NameBody "Review");
      get_stages] /\
   stages (component (final (after AddStageClicked))) = [Sample.design; Sample.build]) /\
  (requests (trace (after (DeleteStageClicked 1)))
   = [Request DELETE "https://app-back-99ll.onrender.com/projects/stage/p1/1" NoBody;
      get_stages] /\
   stages (component (final (after (DeleteStageClicked 1))))
   = [Sample.design; Sample.build]) /\
  (requests (trace (after AddDownloadClicked))
   = [Request POST "https://app-back-99ll.onrender.com/downloads"
              (DownloadBody "Manual" "User manual" "https://example.org/m.pdf");
      get_downloads] /\
   downloads (component (final (after AddDownloadClicked))) = [Sample.manual]) /\
  (requests (trace (after (DeleteDownloadClicked 7)))
   = [Request DELETE "https://app-back-99ll.onrender.com/downloads/7" NoBody;
      get_downloads] /\
   downloads (component (final (after (DeleteDownloadClicked 7)))) = [Sample.manual]).
Proof.
  destruct (C6_refetch_after_mutation Sample.toLowerCase Sample.up (Sample.admin "Gamma"))
    as (Hproject & Hunproject & Hstage & Hunstage & Hdownload & Hundownload).
  cbv zeta. split; [|split; [|split; [|split; [|split]]]].
  - apply (Hproject _ eq_refl); [discriminate| |reflexivity].
    intros p Hp. apply list_elem_of_singleton in Hp as ->. discriminate.
  - apply (Hunproject "p1" _ eq_refl). reflexivity.
  - apply (Hstage "p1" _ eq_refl); [reflexivity|discriminate|discriminate|reflexivity].
  - apply (Hunstage "p1" 1 _ eq_refl); [reflexivity|discriminate|reflexivity].
  - apply (Hdownload _ eq_refl); [discriminate|discriminate|discriminate|reflexivity].
  - apply (Hundownload 7 _ eq_refl). reflexivity.
Defined.

(** *** What the handlers are confined to *)

(** Whatever the state and the replies: no handler touches the browser's
    stores, every request goes to a documented endpoint, and every
    failure is caught. *)
Lemma handler_confined (toLowerCase : string -> string) (st : State) (op : operation) :
  within storeless documented (fun _ => False) (handler toLowerCase st op).
Proof. destruct op; handlers; branch; confine. Qed.

(** *** A request that fails *)

Section Failure.
Variable toLowerCase : string -> string.
Variable srv : server.
Variable w : world State.
Variable e : failure.

Let st := component w.
Let after (op : operation) := trace (dispatch toLowerCase srv op w).

Lemma addProject_failure :
  let post := Request POST "https://app-back-99ll.onrender.com/projects"
                      (ProjectBody (projectName st) (stages st)) in
  projectName st <> "" ->
  (forall p, p ∈ projects st ->
             toLowerCase (Project.projectName p) <> toLowerCase (projectName st)) ->
  srv (sent w) post KIgnored = Failed e ->
  after AddProjectClicked
  = [Requested post;
     Performed (ConsoleError "Error adding project:" e);
     Performed (Fire (Alert icon_error "Error" "Error adding project. Please try again."))].
Proof.
  intros post Hne Hfresh Hpost. subst st after post. handlers.
  rewrite (length_nonempty _ Hne), (find_fresh _ _ _ Hfresh). simpl.
  by replied Hpost.
Qed.

Lemma addStage_failure (sel : string) :
  let post := Request POST ("https://app-back-99ll.onrender.com/projects/stage/" +:+ sel)
                      (NameBody (stageName st)) in
  selectedProject st = Some sel -> sel <> "" -> stageName st <> "" ->
  srv (sent w) post KIgnored = Failed e ->
  after AddStageClicked
  = [Requested post;
     Performed (ConsoleError "Error adding stage:" e);
     Performed (Fire (Alert icon_error "Error" "Error adding stage. Please try again."))].
Proof.
  intros post Hsel Hne Hname Hpost. subst st after post. handlers.
  rewrite Hsel, (truthy_nonempty _ Hne), (truthy_nonempty _ Hname). simpl.
  by replied Hpost.
Qed.

Lemma addDownload_failure :
  let post := Request POST "https://app-back-99ll.onrender.com/downloads"
                      (DownloadBody (downloadName st) (downloadDescription st)
                                    (downloadUrl st)) in
  downloadName st <> "" -> downloadDescription st <> "" -> downloadUrl st <> "" ->
  srv (sent w) post KIgnored = Failed e ->
  after AddDownloadClicked
  = [Requested post;
     Performed (ConsoleError "Error adding download:" e);
     Performed (Fire (Alert icon_error "Error" "Error adding download. Please try again."))].
Proof.
  intros post Hname Hdesc Hurl Hpost. subst st after post. handlers.
  rewrite (truthy_nonempty _ Hname), (truthy_nonempty _ Hdesc), (truthy_nonempty _ Hurl).
  simpl. by replied Hpost.
Qed.

Lemma changeStageStatus_failure (sel stageId currentStatus : string) :
  let put := Request PUT ("https://app-back-99ll.onrender.com/projects/stage/"
                            +:+ sel +:+ "/" +:+ stageId)
                     (StatusBody (newStatus currentStatus)) in
  selectedProject st = Some sel -> sel <> "" ->
  srv (sent w) put KIgnored = Failed e ->
  after (StageStatusClicked stageId currentStatus)
  = [Requested put; Performed (ConsoleError "Error changing stage status:" e)].
Proof.
  intros put Hsel Hne Hput. subst st after put. handlers.
  rewrite Hsel, (truthy_nonempty _ Hne). simpl. by replied Hput.
Qed.

Lemma deleteProject_failure (projectId : string) :
  let del := Request DELETE ("https://app-back-99ll.onrender.com/projects/" +:+ projectId)
                     NoBody in
  srv (sent w) del KIgnored = Failed e ->
  after (DeleteProjectClicked projectId)
  = [Requested del; Performed (ConsoleError "Error deleting project:" e)].
Proof.
  intros del Hdel. subst st after del. handlers. simpl. by replied Hdel.
Qed.

Lemma deleteStage_failure (sel : string) (stageId : Z) :
  let del := Request DELETE ("https://app-back-99ll.onrender.com/projects/stage/"
                               +:+ sel +:+ "/" +:+ pretty stageId) NoBody in
  selectedProject st = Some sel -> sel <> "" ->
  srv (sent w) del KIgnored = Failed e ->
  after (DeleteStageClicked stageId)
  = [Requested del; Performed (ConsoleError "Error deleting stage:" e)].
Proof.
  intros del Hsel Hne Hdel. subst st after del. handlers.
  rewrite Hsel, (truthy_nonempty _ Hne). simpl. by replied Hdel.
Qed.

Lemma deleteDownload_failure (downloadId : Z) :
  let del := Request DELETE ("https://app-back-99ll.onrender.com/downloads/"
                               +:+ pretty downloadId) NoBody in
  srv (sent w) del KIgnored = Failed e ->
  after (DeleteDownloadClicked downloadId)
  = [Requested del; Performed (ConsoleError "Error deleting download:" e)].
Proof.
  intros del Hdel. subst st after del. handlers. simpl. by replied Hdel.
Qed.

Lemma fetchStages_failure (sel : string) :
  let get := Request GET ("https://app-back-99ll.onrender.com/projects/" +:+ sel) NoBody in
  selectedProject st = Some sel -> sel <> "" ->
  srv (sent w) get KProject = Failed e ->
  after SelectedProjectChanged
  = [Requested get; Performed (ConsoleError "Error fetching stages:" e)].
Proof.
  intros get Hsel Hne Hget. subst st after get. handlers.
  rewrite Hsel, (truthy_nonempty _ Hne). simpl. by replied Hget.
Qed.

Lemma fetch_on_mount_failure (e' : failure) :
  let get_projects := Request GET "https://app-back-99ll.onrender.com/projects" NoBody in
  let get_downloads := Request GET "https://app-back-99ll.onrender.com/downloads" NoBody in
  srv (sent w) get_projects KProjects = Failed e ->
  srv (Datatypes.S (sent w)) get_downloads KDownloads = Failed e' ->
  after Mounted
  = [Requested get_projects; Requested get_downloads;
     Performed (ConsoleError "Error fetching projects:" e);
     Performed (ConsoleError "Error fetching downloads:" e')].
Proof.
  intros get_projects get_downloads Hprojects Hdownloads.
  subst st after get_projects get_downloads. handlers. simpl.
  replied Hprojects. by replied Hdownloads.
Qed.
End Failure.
End AdminPanelSpec.

(** ** Splicing arrays *)

Section Splice.
Context {A : Type}.
Implicit Types (a : array A) (x : option A) (i j : nat).

Lemma splice_out_removed a i : first (splice_out i a).1 = default None (a !! i).
Proof.
  unfold first, splice_out. cbn [fst].
  pose proof (lookup_drop a i 0) as Hdrop. rewrite Nat.add_0_r in Hdrop.
  rewrite <- Hdrop. by destruct (drop i a).
Qed.

Lemma splice_out_rest a i : (splice_out i a).2 = delete i a.
Proof. unfold splice_out. cbn [snd]. by rewrite delete_take_drop. Qed.

Lemma splice_in_perm a x i : splice_in i x a ≡ₚ x :: a.
Proof.
  unfold splice_in. rewrite <- Permutation_middle. by rewrite take_drop.
Qed.

Lemma splice_in_lookup a x i : (i <= length a)%nat -> splice_in i x a !! i = Some x.
Proof.
  intros Hi. unfold splice_in. apply list_lookup_middle.
  rewrite length_take. lia.
Qed.

Lemma splice_in_delete a x i : (i <= length a)%nat -> delete i (splice_in i x a) = a.
Proof.
  intros Hi. unfold splice_in.
  assert (length (take i a) = i) as Hlen by (rewrite length_take; lia).
  replace (delete i (take i a ++ x :: drop i a))
    with (delete (length (take i a)) (take i a ++ x :: drop i a)) by (by rewrite Hlen).
  rewrite delete_middle. apply take_drop.
Qed.

Lemma splice_in_out a x i : a !! i = Some x -> splice_in i x (delete i a) = a.
Proof.
  intros Hx. pose proof (lookup_lt_Some _ _ _ Hx) as Hi.
  unfold splice_in. rewrite delete_take_drop.
  assert (length (take i a) = i) as Hlen by (rewrite length_take; lia).
  rewrite take_app_length', drop_app_length' by done.
  by apply take_drop_middle.
Qed.
End Splice.

(** ** The public stage view *)

Module DownloadPageSpec.
Import DownloadPage.

Ltac handlers :=
  unfold dispatch, invoke, handler, trace, final,
    handleStatusChange, makeApiCall, onDragEnd, persistOrder, useEffect_mount in *.

Section Reorder.
Variable st : State.
Implicit Types src dst : nat.

Let l := stages st.

Lemma reorderedStages_spliced src dst :
  reorderedStages st src dst
  = splice_in dst (default None (Array_from l !! src)) (delete src (Array_from l)).
Proof.
  unfold reorderedStages.
  rewrite (surjective_pairing (splice_out src (Array_from (stages st)))).
  by rewrite splice_out_removed, splice_out_rest.
Qed.

Lemma moved_defined src : (src < length l)%nat -> Array_from l !! src = Some (l !! src).
Proof.
  intros Hsrc. unfold Array_from. rewrite list_lookup_fmap.
  by destruct (lookup_lt_is_Some_2 l src Hsrc) as [x ->].
Qed.

Lemma reorderedStages_perm src dst :
  (src < length l)%nat -> reorderedStages st src dst ≡ₚ Array_from l.
Proof.
  intros Hsrc. rewrite reorderedStages_spliced, (moved_defined _ Hsrc). simpl.
  rewrite splice_in_perm. symmetry. by apply delete_Permutation, moved_defined.
Qed.

Lemma reorderedStages_length src dst :
  (src < length l)%nat -> length (reorderedStages st src dst) = length l.
Proof. intros Hsrc. rewrite (reorderedStages_perm _ _ Hsrc). apply length_fmap. Qed.

Lemma reorderedStages_same src :
  (src < length l)%nat -> reorderedStages st src src = Array_from l.
Proof.
  intros Hsrc. rewrite reorderedStages_spliced, (moved_defined _ Hsrc). simpl.
  by apply splice_in_out, moved_defined.
Qed.

Lemma dst_fits src dst :
  (src < length l)%nat -> (dst < length l)%nat ->
  (dst <= length (delete src (Array_from l)))%nat.
Proof.
  intros Hsrc Hdst. rewrite length_delete by (rewrite moved_defined; eauto).
  unfold Array_from. rewrite length_fmap. lia.
Qed.

Lemma reorderedStages_lookup src dst :
  (src < length l)%nat -> (dst < length l)%nat ->
  reorderedStages st src dst !! dst = Some (l !! src).
Proof.
  intros Hsrc Hdst. rewrite reorderedStages_spliced, (moved_defined _ Hsrc). simpl.
  by apply splice_in_lookup, dst_fits.
Qed.

Lemma reorderedStages_delete src dst :
  (src < length l)%nat -> (dst < length l)%nat ->
  delete dst (reorderedStages st src dst) = Array_from (delete src l).
Proof.
  intros Hsrc Hdst. rewrite reorderedStages_spliced, (moved_defined _ Hsrc). simpl.
  rewrite splice_in_delete by by apply dst_fits.
  unfold Array_from. by rewrite !delete_take_drop, fmap_app, fmap_take, fmap_drop.
Qed.

(** A source index past the rendered stages moves nothing: [splice]
    removes no element and an [undefined] slot is put in. *)
Lemma reorderedStages_unrendered src dst :
  (length l <= src)%nat ->
  reorderedStages st src dst = splice_in dst None (Array_from l).
Proof.
  intros Hsrc. rewrite reorderedStages_spliced.
  assert (length (Array_from l) <= src)%nat as Hlen
    by (unfold Array_from; by rewrite length_fmap).
  rewrite (lookup_ge_None_2 _ _ Hlen), delete_take_drop.
  rewrite (take_ge _ _ Hlen), drop_ge by lia. by rewrite app_nil_r.
Qed.
End Reorder.

Example drag_from_unrendered :
  reorderedStages (component (Sample.public true)) 7 1
  = [Some Sample.design; None; Some Sample.build; Some Sample.ship].
Proof. reflexivity. Qed.

Ltac branch :=
  repeat match goal with
    | |- context [match destination ?r with _ => _ end] => destruct (destination r)
    | |- context [if ?b then _ else _] => destruct b
    end.

(** *** Dragging a stage *)

Lemma drag_without_destination (props : Props) (srv : server) (w : world State)
    (from : DraggableLocation) :
  let r := dispatch props srv (DragEnded (Drop from None)) w in
  trace r = [] /\ final r = w.
Proof. handlers. simpl. by destruct w. Qed.

Lemma drag_requests (props : Props) (srv : server) (w : world State) (src dst : nat) :
  isAdmin props = true ->
  requests (trace (dispatch props srv (DragEnded (Drop (At src) (Some (At dst)))) w))
  = [Request PUT ("https://app-back-99ll.onrender.com/reorder/" +:+ pretty (projectId props))
             (StagesBody (reorderedStages (component w) src dst))].
Proof. intros Hadmin. handlers. rewrite Hadmin. simpl. by reply. Qed.

(** C4.  A drag by an admin from one rendered position to another sends, as
    the new order, the stages with the one at [source.index] taken out
    and put back at [destination.index]: that slot holds it, without
    that slot the list is the original without the source slot, the
    whole is a permutation of the original of the same length, and a
    drop on the position it came from changes nothing.  A drag without a
    destination does nothing at all. *)
Theorem C4_drag_reorders (props : Props) (srv : server) (w : world State) (src dst : nat) :
  let l := stages (component w) in
  let moved := reorderedStages (component w) src dst in
  (isAdmin props = true -> (src < length l)%nat -> (dst < length l)%nat ->
   requests (trace (dispatch props srv (DragEnded (Drop (At src) (Some (At dst)))) w))
   = [Request PUT ("https://app-back-99ll.onrender.com/reorder/"
                     +:+ pretty (projectId props)) (StagesBody moved)] /\
   moved !! dst = Some (l !! src) /\
   delete dst moved = Array_from (delete src l) /\
   moved ≡ₚ Array_from l /\
   length moved = length l /\
   reorderedStages (component w) src src = Array_from l) /\
  (let r := dispatch props srv (DragEnded (Drop (At src) None)) w in
   trace r = [] /\ final r = w).
Proof.
  split; [|apply drag_without_destination].
  intros Hadmin Hsrc Hdst. split; [by apply drag_requests|].
  split; [by apply reorderedStages_lookup|].
  split; [by apply reorderedStages_delete|].
  split; [by apply reorderedStages_perm|].
  split; [by apply reorderedStages_length|by apply reorderedStages_same].
Qed.

Lemma C4_drag_reorders_witness :
  let w := Sample.public true in
  let moved := [Some Sample.build; Some Sample.ship; Some Sample.design] in
  requests (trace (dispatch (Sample.page true) Sample.up
                            (DragEnded (Drop (At 0) (Some (At 2)))) w))
  = [Request PUT "https://app-back-99ll.onrender.com/reorder/5" (StagesBody moved)] /\
  moved !! 2%nat = Some (Some Sample.design) /\
  delete 2%nat moved = [Some Sample.build; Some Sample.ship] /\
  moved ≡ₚ [Some Sample.design; Some Sample.build; Some Sample.ship] /\
  length moved = 3%nat /\
  reorderedStages (component w) 0 0 = [Some Sample.design; Some Sample.build; Some Sample.ship].
Proof.
  apply (C4_drag_reorders (Sample.page true) Sample.up (Sample.public true) 0 2).
  - reflexivity.
  - simpl. lia.
  - simpl. lia.
Defined.

(** *** Editing a status *)

Lemma status_edit_state (props : Props) (srv : server) (w : world State)
    (stageId : Z) (status : Status.t) :
  isAdmin props = true ->
  let r := dispatch props srv (StatusSelected stageId status) w in
  stages (component (final r)) = updatedStages (component w) stageId status /\
  requests (trace r)
  = [Request PUT ("https://app-back-99ll.onrender.com/projects/stage/"
                    +:+ pretty (projectId props) +:+ "/" +:+ pretty stageId)
             (StatusBody (Status.to_string status))].
Proof. intros Hadmin. handlers. rewrite Hadmin. simpl. by reply. Qed.

Lemma updatedStages_lookup (st : State) (stageId : Z) (status : Status.t) (i : nat) :
  updatedStages st stageId status !! i
  = (fun stage => if Z.eqb (Stage.id stage) stageId
                  then Stage.with_status stage status else stage) <$> stages st !! i.
Proof. unfold updatedStages. apply list_lookup_fmap. Qed.

Lemma updatedStages_absent (st : State) (stageId : Z) (status : Status.t) :
  (forall stage, stage ∈ stages st -> Stage.id stage <> stageId) ->
  updatedStages st stageId status = stages st.
Proof.
  unfold updatedStages. induction (stages st) as [|stage l IH]; intros Hno; [done|].
  rewrite fmap_cons, IH.
  - destruct (Z.eqb_spec (Stage.id stage) stageId) as [Heq|]; [|done].
    destruct (Hno stage); [left|done].
  - intros stage' Hin. apply Hno. by right.
Qed.

(** C10.  After an admin picked [status] for the stage [stageId], the
    stages in the state are as many as before and in the same places;
    the one with that id has the new status and its other fields as
    they were, every other one is the very same; with no stage of that
    id the list is the same list. *)
Theorem C10_status_edit_frame (props : Props) (srv : server) (w : world State)
    (stageId : Z) (status : Status.t) :
  isAdmin props = true ->
  let l := stages (component w) in
  let l' := stages (component (final (dispatch props srv
                                               (StatusSelected stageId status) w))) in
  length l' = length l /\
  (forall i stage, l !! i = Some stage ->
     exists stage', l' !! i = Some stage' /\
       Stage.id stage' = Stage.id stage /\
       Stage.name stage' = Stage.name stage /\
       Stage.order stage' = Stage.order stage /\
       (Stage.id stage = stageId -> Stage.status stage' = status) /\
       (Stage.id stage <> stageId -> stage' = stage)) /\
  ((forall stage, stage ∈ l -> Stage.id stage <> stageId) -> l' = l).
Proof.
  intros Hadmin l l'.
  assert (l' = updatedStages (component w) stageId status) as ->
    by by apply status_edit_state.
  split; [|split].
  - unfold updatedStages. apply length_fmap.
  - intros i stage Hi. rewrite updatedStages_lookup. fold l. rewrite Hi. simpl.
    destruct (Z.eqb_spec (Stage.id stage) stageId) as [Heq|Hne]; eexists; split; eauto.
    + repeat split; try done.
    + repeat split; try done.
  - apply updatedStages_absent.
Qed.

Lemma C10_status_edit_frame_witness :
  let l' := stages (component (final (dispatch (Sample.page true) Sample.down
                                         (StatusSelected 2 Status.completed)
                                         (Sample.public true)))) in
  length l' = 3%nat /\
  (exists stage', l' !! 1%nat = Some stage' /\
     Stage.id stage' = 2 /\
     Stage.name stage' = "Build" /\
     Stage.order stage' = 1 /\
     (Stage.id Sample.build = 2 -> Stage.status stage' = Status.completed) /\
     (Stage.id Sample.build <> 2 -> stage' = Sample.build)) /\
  (exists stage', l' !! 2%nat = Some stage' /\
     Stage.id stage' = 3 /\
     Stage.name stage' = "Ship" /\
     Stage.order stage' = 2 /\
     (Stage.id Sample.ship = 2 -> Stage.status stage' = Status.completed) /\
     (Stage.id Sample.ship <> 2 -> stage' = Sample.ship)).
Proof.
  destruct (C10_status_edit_frame (Sample.page true) Sample.down (Sample.public true)
              2 Status.completed eq_refl) as (Hlength & Hstages & Habsent).
  split; [exact Hlength|]. split.
  - apply (Hstages 1%nat Sample.build). reflexivity.
  - apply (Hstages 2%nat Sample.ship). reflexivity.
Defined.

(** *** Who may edit *)

Lemma status_edit_denied (props : Props) (srv : server) (w : world State)
    (stageId : Z) (status : Status.t) :
  isAdmin props = false ->
  let r := dispatch props srv (StatusSelected stageId status) w in
  trace r = [Performed (Fire (Alert icon_warning "Access Denied"
                                    "Only admins can change the status."))] /\
  requests (trace r) = [] /\
  final r = w.
Proof. intros Hadmin. handlers. rewrite Hadmin. simpl. by destruct w. Qed.

Lemma drag_denied (props : Props) (srv : server) (w : world State)
    (from to : DraggableLocation) :
  isAdmin props = false ->
  let r := dispatch props srv (DragEnded (Drop from (Some to))) w in
  trace r = [Performed (Fire (Alert icon_warning "Access Denied"
                                    "Only admins can rearrange the stages."))] /\
  requests (trace r) = [] /\
  final r = w.
Proof. intros Hadmin. handlers. rewrite Hadmin. simpl. by destruct w. Qed.

(** C3, as the code has it.  For somebody who is not an admin, a status
    edit and a drag that has a destination open the Access Denied dialog
    and do nothing else: no request, no state change.  For an admin the
    status edit sends the PUT of the stage and the drag with a
    destination the PUT of the new order. *)
Theorem C3_edits_are_admin_only (props : Props) (srv : server) (w : world State) :
  let after (op : operation) := dispatch props srv op w in
  (isAdmin props = false ->
   (forall stageId status,
      trace (after (StatusSelected stageId status))
      = [Performed (Fire (Alert icon_warning "Access Denied"
                                "Only admins can change the status."))] /\
      requests (trace (after (StatusSelected stageId status))) = [] /\
      final (after (StatusSelected stageId status)) = w) /\
   (forall from to,
      trace (after (DragEnded (Drop from (Some to))))
      = [Performed (Fire (Alert icon_warning "Access Denied"
                                "Only admins can rearrange the stages."))] /\
      requests (trace (after (DragEnded (Drop from (Some to))))) = [] /\
      final (after (DragEnded (Drop from (Some to)))) = w)) /\
  (isAdmin props = true ->
   (forall stageId status,
      requests (trace (after (StatusSelected stageId status)))
      = [Request PUT ("https://app-back-99ll.onrender.com/projects/stage/"
                        +:+ pretty (projectId props) +:+ "/" +:+ pretty stageId)
                 (StatusBody (Status.to_string status))]) /\
   (forall src dst,
      requests (trace (after (DragEnded (Drop (At src) (Some (At dst))))))
      = [Request PUT ("https://app-back-99ll.onrender.com/reorder/"
                        +:+ pretty (projectId props))
                 (StagesBody (reorderedStages (component w) src dst))])).
Proof.
  cbv zeta. split; intros Hadmin; split.
  - intros stageId status. by apply status_edit_denied.
  - intros from to. by apply drag_denied.
  - intros stageId status. by apply status_edit_state.
  - intros src dst. by apply drag_requests.
Qed.

Lemma C3_edits_are_admin_only_witness :
  (trace (dispatch (Sample.page false) Sample.up (StatusSelected 2 Status.completed)
                   (Sample.public false))
   = [Performed (Fire (Alert icon_warning "Access Denied"
                             "Only admins can change the status."))] /\
   trace (dispatch (Sample.page false) Sample.up (DragEnded (Drop (At 0) (Some (At 2))))
                   (Sample.public false))
   = [Performed (Fire (Alert icon_warning "Access Denied"
                             "Only admins can rearrange the stages."))]) /\
  (requests (trace (dispatch (Sample.page true) Sample.up
                             (StatusSelected 2 Status.completed) (Sample.public true)))
   = [Request PUT "https://app-back-99ll.onrender.com/projects/stage/5/2"
              (StatusBody "completed")] /\
   requests (trace (dispatch (Sample.page true) Sample.up
                             (DragEnded (Drop (At 0) (Some (At 2)))) (Sample.public true)))
   = [Request PUT "https://app-back-99ll.onrender.com/reorder/5"
              (StagesBody [Some Sample.build; Some Sample.ship; Some Sample.design])]).
Proof.
  destruct (C3_edits_are_admin_only (Sample.page false) Sample.up (Sample.public false))
    as [Hdenied _].
  destruct (C3_edits_are_admin_only (Sample.page true) Sample.up (Sample.public true))
    as [_ Hallowed].
  destruct (Hdenied eq_refl) as [Hstatus Hdrag].
  destruct (Hallowed eq_refl) as [Hput Hreorder].
  split; split.
  - apply (Hstatus 2 Status.completed).
  - apply (Hdrag (At 0) (At 2)).
  - apply (Hput 2 Status.completed).
  - apply (Hreorder 0%nat 2%nat).
Defined.

(** A drag that ends outside the list has no destination; whoever did
    it, nothing is shown and nothing is sent. *)
Lemma C3_counterexample :
  let denied := dispatch (Sample.page false) Sample.up (DragEnded (Drop (At 0) None))
                         (Sample.public false) in
  let admin := dispatch (Sample.page true) Sample.up (DragEnded (Drop (At 0) None))
                        (Sample.public true) in
  (isAdmin (Sample.page false) = false /\ alerts (trace denied) = []) /\
  (isAdmin (Sample.page true) = true /\ requests (trace admin) = []).
Proof. done. Qed.

(** *** What the handlers are confined to *)

Lemma handler_documented (props : Props) (st : State) (op : operation) :
  within (fun _ => True) documented (fun _ => True) (handler props st op).
Proof. destruct op; handlers; branch; confine. Qed.

Lemma handleStatusChange_storeless (props : Props) (st : State)
    (stageId : Z) (status : Status.t) :
  within storeless (fun _ => True) (fun _ => True)
         (handler props st (StatusSelected stageId status)).
Proof. handlers; branch; confine. Qed.

(** [persistOrder] catches what its request throws, so [onDragEnd] never
    rejects. *)
Lemma onDragEnd_confined (props : Props) (st : State) (result : DropResult) :
  within storeless documented (fun _ => False) (handler props st (DragEnded result)).
Proof. handlers; branch; confine. Qed.

(** *** A request that fails *)

Lemma persistOrder_failure (props : Props) (srv : server) (w : world State)
    (src dst : nat) (e : failure) :
  let put := Request PUT ("https://app-back-99ll.onrender.com/reorder/"
                            +:+ pretty (projectId props))
                     (StagesBody (reorderedStages (component w) src dst)) in
  isAdmin props = true ->
  srv (sent w) put KIgnored = Failed e ->
  trace (dispatch props srv (DragEnded (Drop (At src) (Some (At dst)))) w)
  = [Requested put;
     Performed (ConsoleError "Error updating stages:" e);
     Performed (Fire (Alert icon_error "Update Failed"
                            "There was an error updating the stages."))].
Proof.
  intros put Hadmin Hput. subst put. handlers. rewrite Hadmin. simpl. by replied Hput.
Qed.

(** [makeApiCall] has no handler of its own and [handleStatusChange] none
    around it: the state is changed, the request fails, the rejection is
    nobody's. *)
Lemma makeApiCall_failure (props : Props) (srv : server) (w : world State)
    (stageId : Z) (status : Status.t) (e : failure) :
  let put := Request PUT ("https://app-back-99ll.onrender.com/projects/stage/"
                            +:+ pretty (projectId props) +:+ "/" +:+ pretty stageId)
                     (StatusBody (Status.to_string status)) in
  isAdmin props = true ->
  srv (sent w) put KIgnored = Failed e ->
  trace (dispatch props srv (StatusSelected stageId status) w)
  = [Performed (SetState (setStages (updatedStages (component w) stageId status)));
     Requested put;
     UnhandledRejection e].
Proof.
  intros put Hadmin Hput. subst put. handlers. rewrite Hadmin. simpl. by replied Hput.
Qed.

(** *** The mount effect *)

Lemma mount_stores_page (props : Props) (srv : server) (w : world State) :
  let r := dispatch props srv Mounted w in
  localStorage (final r) = <["lastPage" := href w]> (localStorage w) /\
  href (final r) = href w /\
  component (final r) = component w /\
  requests (trace r) = [].
Proof.
  handlers. simpl. rewrite lookup_insert_eq.
  by destruct (truthy (href w)).
Qed.
End DownloadPageSpec.

(** ** Both components *)

Section Traces.
Context {S U : Type} (reduce : U -> S -> S).
Variable allow_effect : effect U -> Prop.
Variable allow_request : request -> Prop.
Variable allow_throw : failure -> Prop.
Implicit Types evs : list (event U).

Lemma allowed_requests evs :
  Forall (allowed allow_effect allow_request allow_throw) evs ->
  Forall allow_request (requests evs).
Proof.
  unfold requests. induction 1 as [|ev evs Hev _ IH]; [constructor|].
  destruct ev; simpl; try done. by constructor.
Qed.

Lemma allowed_rejections evs e :
  Forall (allowed allow_effect allow_request allow_throw) evs ->
  UnhandledRejection e ∈ evs -> allow_throw e.
Proof.
  intros Hall Hin. by apply (proj1 (Forall_forall _ _) Hall _ Hin).
Qed.

Lemma storeless_replay evs (w : world S) :
  Forall (allowed storeless allow_request allow_throw) evs ->
  localStorage (replay reduce w evs) = localStorage w /\
  href (replay reduce w evs) = href w.
Proof.
  intros Hall. revert w. unfold replay.
  induction Hall as [|ev evs Hev _ IH]; intros w; [done|].
  simpl. destruct (IH (observe reduce w ev)) as [-> ->].
  by destruct ev as [[]| |].
Qed.
End Traces.

Lemma documented_base (r : request) :
  documented r -> exists path, req_url r = baseURL +:+ path.
Proof. destruct 1; simpl; by eexists. Qed.

(** C7.  Whatever React calls on either component, in whatever state and
    whatever the server replies, every request sent goes to a URL under
    https://app-back-99ll.onrender.com and is one of the documented
    endpoints with one of its methods. *)
Theorem C7_requests_are_documented :
  let known (r : request) := documented r /\ exists path, req_url r = baseURL +:+ path in
  (forall toLowerCase srv op w,
     Forall known (requests (trace (AdminPanel.dispatch toLowerCase srv op w)))) /\
  (forall props srv op w,
     Forall known (requests (trace (DownloadPage.dispatch props srv op w)))).
Proof.
  cbv zeta. split; intros.
  - eapply Forall_impl.
    + eapply allowed_requests, invoke_within, AdminPanelSpec.handler_confined.
    + intros r Hr. split; [done|by apply documented_base].
  - eapply Forall_impl.
    + eapply allowed_requests, invoke_within, DownloadPageSpec.handler_documented.
    + intros r Hr. split; [done|by apply documented_base].
Qed.

(** The public view writes the address of the page to [localStorage] when
    it is mounted, and the entry stays there. *)
Lemma C8_counterexample :
  let before := Sample.public false in
  let after := final (DownloadPage.dispatch (Sample.page false) Sample.up
                                            DownloadPage.Mounted before) in
  localStorage before !! "lastPage" = None /\
  localStorage after !! "lastPage" = Some "https://app.example/p/5" /\
  ~ (forall props srv op w,
       localStorage (final (DownloadPage.dispatch props srv op w)) = localStorage w).
Proof.
  split; [done|]. split; [done|]. intros Hframe.
  specialize (Hframe (Sample.page false) Sample.up DownloadPage.Mounted (Sample.public false)).
  apply (f_equal (fun m => m !! "lastPage")) in Hframe. discriminate.
Qed.

(** C8, as the code has it.  No handler of the admin panel and neither the
    status edit nor the drag of the public view writes to [localStorage]
    or to the address bar: what they change is component state, and what
    they keep they send to the server.  The one write to a store of the
    browser is the mount effect of the public view, which puts the address
    of the page under "lastPage" and touches nothing else. *)
Theorem C8_state_is_local :
  (forall toLowerCase srv op w,
     let r := AdminPanel.dispatch toLowerCase srv op w in
     localStorage (final r) = localStorage w /\ href (final r) = href w) /\
  (forall props srv stageId status w,
     let r := DownloadPage.dispatch props srv (DownloadPage.StatusSelected stageId status) w in
     localStorage (final r) = localStorage w /\ href (final r) = href w) /\
  (forall props srv result w,
     let r := DownloadPage.dispatch props srv (DownloadPage.DragEnded result) w in
     localStorage (final r) = localStorage w /\ href (final r) = href w) /\
  (forall props srv w,
     let r := DownloadPage.dispatch props srv DownloadPage.Mounted w in
     localStorage (final r) = <["lastPage" := href w]> (localStorage w) /\
     href (final r) = href w /\
     component (final r) = component w /\
     requests (trace r) = []).
Proof.
  split; [|split; [|split]]; intros; subst r.
  - unfold AdminPanel.dispatch. rewrite invoke_replay.
    eapply storeless_replay, invoke_within, AdminPanelSpec.handler_confined.
  - unfold DownloadPage.dispatch. rewrite invoke_replay.
    eapply storeless_replay, invoke_within, DownloadPageSpec.handleStatusChange_storeless.
  - unfold DownloadPage.dispatch. rewrite invoke_replay.
    eapply storeless_replay, invoke_within, DownloadPageSpec.onDragEnd_confined.
  - apply DownloadPageSpec.mount_stores_page.
Qed.

(** Deleting a project while the server is away: the request fails, the
    failure goes to the console, and no dialog tells the user. *)
Lemma C5_counterexample :
  let del := Request DELETE "https://app-back-99ll.onrender.com/projects/p1" NoBody in
  let r := AdminPanel.dispatch Sample.toLowerCase Sample.down
                               (AdminPanel.DeleteProjectClicked "p1") (Sample.admin "") in
  requests (trace r) = [del] /\
  Sample.down 0%nat del KIgnored = Failed "Network Error" /\
  alerts (trace r) = [] /\
  trace r = [Requested del;
             Performed (ConsoleError "Error deleting project:" "Network Error")].
Proof. done. Qed.

(** C5, as the code has it.  In the admin panel, and for a drag in the
    public view, a request that fails is caught by the handler that sent
    it: no rejection is left unhandled, and nothing is sent after the
    failure.  [handleAddProject], [handleAddStage], [handleAddDownload] and
    [persistOrder] then write to the console and open an error dialog; the
    status toggle, the three deletes and the three fetches write to the
    console only. *)
Theorem C5_failures_are_caught (toLowerCase : string -> string) (srv : server)
    (w : world AdminPanel.State) (props : DownloadPage.Props)
    (v : world DownloadPage.State) (e : failure) :
  let st := component w in
  let admin (op : AdminPanel.operation) :=
    trace (AdminPanel.dispatch toLowerCase srv op w) in
  let public (op : DownloadPage.operation) :=
    trace (DownloadPage.dispatch props srv op v) in
  let console (msg : string) : event AdminPanel.Update := Performed (ConsoleError msg e) in
  let dialog (text : string) : event AdminPanel.Update :=
    Performed (Fire (Alert icon_error "Error" text)) in
  (forall op e', UnhandledRejection e' ∉ admin op) /\
  (forall result e', UnhandledRejection e' ∉ public (DownloadPage.DragEnded result)) /\
  (forall post,
     post = Request POST "https://app-back-99ll.onrender.com/projects"
                    (ProjectBody (AdminPanel.projectName st) (AdminPanel.stages st)) ->
     AdminPanel.projectName st <> "" ->
     (forall p, p ∈ AdminPanel.projects st ->
                toLowerCase (Project.projectName p)
                <> toLowerCase (AdminPanel.projectName st)) ->
     srv (sent w) post KIgnored = Failed e ->
     admin AdminPanel.AddProjectClicked
     = [Requested post; console "Error adding project:";
        dialog "Error adding project. Please try again."]) /\
  (forall sel post,
     post = Request POST ("https://app-back-99ll.onrender.com/projects/stage/" +:+ sel)
                    (NameBody (AdminPanel.stageName st)) ->
     AdminPanel.selectedProject st = Some sel -> sel <> "" -> AdminPanel.stageName st <> "" ->
     srv (sent w) post KIgnored = Failed e ->
     admin AdminPanel.AddStageClicked
     = [Requested post; console "Error adding stage:";
        dialog "Error adding stage. Please try again."]) /\
  (forall post,
     post = Request POST "https://app-back-99ll.onrender.com/downloads"
                    (DownloadBody (AdminPanel.downloadName st)
                                  (AdminPanel.downloadDescription st)
                                  (AdminPanel.downloadUrl st)) ->
     AdminPanel.downloadName st <> "" -> AdminPanel.downloadDescription st <> "" ->
     AdminPanel.downloadUrl st <> "" ->
     srv (sent w) post KIgnored = Failed e ->
     admin AdminPanel.AddDownloadClicked
     = [Requested post; console "Error adding download:";
        dialog "Error adding download. Please try again."]) /\
  (forall src dst put,
     put = Request PUT ("https://app-back-99ll.onrender.com/reorder/"
                          +:+ pretty (DownloadPage.projectId props))
                   (StagesBody (DownloadPage.reorderedStages (component v) src dst)) ->
     DownloadPage.isAdmin props = true ->
     srv (sent v) put KIgnored = Failed e ->
     public (DownloadPage.DragEnded
               (DownloadPage.Drop (DownloadPage.At src) (Some (DownloadPage.At dst))))
     = [Requested put;
        Performed (ConsoleError "Error updating stages:" e);
        Performed (Fire (Alert icon_error "Update Failed"
                               "There was an error updating the stages."))]) /\
  (forall sel stageId currentStatus put,
     put = Request PUT ("https://app-back-99ll.onrender.com/projects/stage/"
                          +:+ sel +:+ "/" +:+ stageId)
                   (StatusBody (AdminPanel.newStatus currentStatus)) ->
     AdminPanel.selectedProject st = Some sel -> sel <> "" ->
     srv (sent w) put KIgnored = Failed e ->
     admin (AdminPanel.StageStatusClicked stageId currentStatus)
     = [Requested put; console "Error changing stage status:"]) /\
  (forall projectId del,
     del = Request DELETE ("https://app-back-99ll.onrender.com/projects/" +:+ projectId)
                   NoBody ->
     srv (sent w) del KIgnored = Failed e ->
     admin (AdminPanel.DeleteProjectClicked projectId)
     = [Requested del; console "Error deleting project:"]) /\
  (forall sel stageId del,
     del = Request DELETE ("https://app-back-99ll.onrender.com/projects/stage/"
                             +:+ sel +:+ "/" +:+ pretty stageId) NoBody ->
     AdminPanel.selectedProject st = Some sel -> sel <> "" ->
     srv (sent w) del KIgnored = Failed e ->
     admin (AdminPanel.DeleteStageClicked stageId)
     = [Requested del; console "Error deleting stage:"]) /\
  (forall downloadId del,
     del = Request DELETE ("https://app-back-99ll.onrender.com/downloads/"
                             +:+ pretty downloadId) NoBody ->
     srv (sent w) del KIgnored = Failed e ->
     admin (AdminPanel.DeleteDownloadClicked downloadId)
     = [Requested del; console "Error deleting download:"]) /\
  (forall sel get,
     get = Request GET ("https://app-back-99ll.onrender.com/projects/" +:+ sel) NoBody ->
     AdminPanel.selectedProject st = Some sel -> sel <> "" ->
     srv (sent w) get KProject = Failed e ->
     admin AdminPanel.SelectedProjectChanged
     = [Requested get; console "Error fetching stages:"]) /\
  (forall e' get_projects get_downloads,
     get_projects = Request GET "https://app-back-99ll.onrender.com/projects" NoBody ->
     get_downloads = Request GET "https://app-back-99ll.onrender.com/downloads" NoBody ->
     srv (sent w) get_projects KProjects = Failed e ->
     srv (Datatypes.S (sent w)) get_downloads KDownloads = Failed e' ->
     admin AdminPanel.Mounted
     = [Requested get_projects; Requested get_downloads;
        console "Error fetching projects:";
        Performed (ConsoleError "Error fetching downloads:" e')]).
Proof.
  cbv zeta. repeat apply conj.
  - intros op e' Hin.
    eapply (allowed_rejections _ _ _ _ _ (invoke_within _ _ _ _ _ _ _
              (AdminPanelSpec.handler_confined toLowerCase (component w) op)) Hin).
  - intros result e' Hin.
    eapply (allowed_rejections _ _ _ _ _ (invoke_within _ _ _ _ _ _ _
              (DownloadPageSpec.onDragEnd_confined props (component v) result)) Hin).
  - intros post ->. apply AdminPanelSpec.addProject_failure.
  - intros sel post ->. apply AdminPanelSpec.addStage_failure.
  - intros post ->. apply AdminPanelSpec.addDownload_failure.
  - intros src dst put ->. apply DownloadPageSpec.persistOrder_failure.
  - intros sel stageId currentStatus put ->. apply AdminPanelSpec.changeStageStatus_failure.
  - intros projectId del ->. apply AdminPanelSpec.deleteProject_failure.
  - intros sel stageId del ->. apply AdminPanelSpec.deleteStage_failure.
  - intros downloadId del ->. apply AdminPanelSpec.deleteDownload_failure.
  - intros sel get ->. apply AdminPanelSpec.fetchStages_failure.
  - intros e' get_projects get_downloads -> ->. apply AdminPanelSpec.fetch_on_mount_failure.
Qed.

Lemma C5_failures_are_caught_witness :
  let e : failure := "Network Error" in
  let admin (op : AdminPanel.operation) :=
    trace (AdminPanel.dispatch Sample.toLowerCase Sample.down op (Sample.admin "Gamma")) in
  let public (op : DownloadPage.operation) :=
    trace (DownloadPage.dispatch (Sample.page true) Sample.down op (Sample.public true)) in
  let console (msg : string) : event AdminPanel.Update := Performed (ConsoleError msg e) in
  let dialog (text : string) : event AdminPanel.Update :=
    Performed (Fire (Alert icon_error "Error" text)) in
  let drag := DownloadPage.DragEnded
                (DownloadPage.Drop (DownloadPage.At 0) (Some (DownloadPage.At 2))) in
  (UnhandledRejection e ∉ admin AdminPanel.AddProjectClicked) /\
  (UnhandledRejection e ∉ public drag) /\
  admin AdminPanel.AddProjectClicked
  = [Requested (Request POST "https://app-back-99ll.onrender.com/projects"
                        (ProjectBody "Gamma" [Sample.design]));
     console "Error adding project:"; dialog "Error adding project. Please try again."] /\
  admin AdminPanel.AddStageClicked
  = [Requested (Request POST "https://app-back-99ll.onrender.com/projects/stage/p1"
                        (NameBody "Review"));
     console "Error adding stage:"; dialog "Error adding stage. Please try again."] /\
  admin AdminPanel.AddDownloadClicked
  = [Requested (Request POST "https://app-back-99ll.onrender.com/downloads"
                        (DownloadBody "Manual" "User manual" "https://example.org/m.pdf"));
     console "Error adding download:"; dialog "Error adding download. Please try again."] /\
  public drag
  = [Requested (Request PUT "https://app-back-99ll.onrender.com/reorder/5"
                        (StagesBody [Some Sample.build; Some Sample.ship; Some Sample.design]));
     Performed (ConsoleError "Error updating stages:" e);
     Performed (Fire (Alert icon_error "Update Failed"
                            "There was an error updating the stages."))] /\
  admin (AdminPanel.StageStatusClicked "1" "completed")
  = [Requested (Request PUT "https://app-back-99ll.onrender.com/projects/stage/p1/1"
                        (StatusBody "incomplete"));
     console "Error changing stage status:"] /\
  admin (AdminPanel.DeleteProjectClicked "p1")
  = [Requested (Request DELETE "https://app-back-99ll.onrender.com/projects/p1" NoBody);
     console "Error deleting project:"] /\
  admin (AdminPanel.DeleteStageClicked 1)
  = [Requested (Request DELETE "https://app-back-99ll.onrender.com/projects/stage/p1/1" NoBody);
     console "Error deleting stage:"] /\
  admin (AdminPanel.DeleteDownloadClicked 7)
  = [Requested (Request DELETE "https://app-back-99ll.onrender.com/downloads/7" NoBody);
     console "Error deleting download:"] /\
  admin AdminPanel.SelectedProjectChanged
  = [Requested (Request GET "https://app-back-99ll.onrender.com/projects/p1" NoBody);
     console "Error fetching stages:"] /\
  admin AdminPanel.Mounted
  = [Requested (Request GET "https://app-back-99ll.onrender.com/projects" NoBody);
     Requested (Request GET "https://app-back-99ll.onrender.com/downloads" NoBody);
     console "Error fetching projects:"; console "Error fetching downloads:"].
Proof.
  destruct (C5_failures_are_caught Sample.toLowerCase Sample.down (Sample.admin "Gamma")
              (Sample.page true) (Sample.public true) "Network Error")
    as (Hadmin & Hdrag & Hproject & Hstage & Hdownload & Horder & Hstatus
        & Hunproject & Hunstage & Hundownload & Hstages & Hmount).
  cbv zeta. repeat apply conj.
  - apply Hadmin.
  - apply Hdrag.
  - apply (Hproject _ eq_refl); [discriminate| |reflexivity].
    intros p Hp. apply list_elem_of_singleton in Hp as ->. discriminate.
  - apply (Hstage "p1" _ eq_refl); [reflexivity|discriminate|discriminate|reflexivity].
  - apply (Hdownload _ eq_refl); [discriminate|discriminate|discriminate|reflexivity].
  - apply (Horder 0%nat 2%nat _ eq_refl); reflexivity.
  - apply (Hstatus "p1" "1" "completed" _ eq_refl); [reflexivity|discriminate|reflexivity].
  - apply (Hunproject "p1" _ eq_refl). reflexivity.
  - apply (Hunstage "p1" 1 _ eq_refl); [reflexivity|discriminate|reflexivity].
  - apply (Hundownload 7 _ eq_refl). reflexivity.
  - apply (Hstages "p1" _ eq_refl); [reflexivity|discriminate|reflexivity].
  - apply (Hmount "Network Error" _ _ eq_refl eq_refl); reflexivity.
Defined.

(** * More of the two components *)

Section MoreSplice.
Context {A : Type}.
Implicit Types (a : array A) (x : option A) (i : nat).

Lemma splice_in_length a x i : length (splice_in i x a) = Datatypes.S (length a).
Proof. by rewrite splice_in_perm. Qed.

Lemma splice_in_elem a x i : x ∈ splice_in i x a.
Proof. rewrite splice_in_perm. by left. Qed.

Lemma Array_from_delete (l : list A) i : delete i (Array_from l) = Array_from (delete i l).
Proof. unfold Array_from. by rewrite !delete_take_drop, fmap_app, fmap_take, fmap_drop. Qed.
End MoreSplice.

Section MoreTraces.
Context {S U : Type}.
Variable allow_request : request -> Prop.
Variable allow_throw : failure -> Prop.

Lemma dialogless_alerts (evs : list (event U)) :
  Forall (allowed dialogless allow_request allow_throw) evs -> alerts evs = [].
Proof.
  unfold alerts. induction 1 as [|ev evs Hev _ IH]; [done|].
  by destruct ev as [[]| |].
Qed.
End MoreTraces.

(** ** The admin panel *)

Module AdminPanelMore.
Import AdminPanel.
Import AdminPanelSpec.

(** Closes a goal about the state after a handler ran. *)
Ltac same_state w := destruct w as [[]]; simpl in *; by simplify_eq.

(** *** Forms that are not filled in *)

(** X1.  [handleAddStage] with no project selected or no stage name does
    nothing at all: no request, no dialog, no state change. *)
Theorem X1_addStage_guard (toLowerCase : string -> string) (srv : server)
    (w : world State) :
  selectedProject (component w) = None \/
  selectedProject (component w) = Some "" \/
  stageName (component w) = "" ->
  dispatch toLowerCase srv AddStageClicked w = (w, []).
Proof.
  intros Hguard. handlers.
  destruct (selectedProject (component w)) as [sel|]; [|by destruct w].
  destruct Hguard as [?|[[= ->]| ->]]; [done| |].
  - by destruct w.
  - rewrite andb_comm. by destruct w.
Qed.

Lemma X1_addStage_guard_witness :
  dispatch Sample.toLowerCase Sample.up AddStageClicked Sample.blank = (Sample.blank, []).
Proof.
  apply (X1_addStage_guard Sample.toLowerCase Sample.up Sample.blank). by left.
Defined.

(** X2.  [handleAddDownload] with the name, the description or the URL
    empty does nothing at all. *)
Theorem X2_addDownload_guard (toLowerCase : string -> string) (srv : server)
    (w : world State) :
  downloadName (component w) = "" \/
  downloadDescription (component w) = "" \/
  downloadUrl (component w) = "" ->
  dispatch toLowerCase srv AddDownloadClicked w = (w, []).
Proof.
  intros Hguard. handlers.
  assert (truthy (downloadName (component w)) && truthy (downloadDescription (component w))
          && truthy (downloadUrl (component w)) = false) as ->.
  { destruct Hguard as [-> |[-> | ->]]; simpl; by rewrite ?andb_false_r. }
  by destruct w.
Qed.

Lemma X2_addDownload_guard_witness :
  dispatch Sample.toLowerCase Sample.up AddDownloadClicked Sample.blank = (Sample.blank, []).
Proof.
  apply (X2_addDownload_guard Sample.toLowerCase Sample.up Sample.blank). by left.
Defined.

(** X3.  With no project selected, the status button and the delete
    button of a stage row do nothing at all. *)
Theorem X3_stage_buttons_guard (toLowerCase : string -> string) (srv : server)
    (w : world State) (stageId currentStatus : string) (stage : Z) :
  selectedProject (component w) = None \/ selectedProject (component w) = Some "" ->
  dispatch toLowerCase srv (StageStatusClicked stageId currentStatus) w = (w, []) /\
  dispatch toLowerCase srv (DeleteStageClicked stage) w = (w, []).
Proof.
  intros [Hsel|Hsel]; handlers; rewrite Hsel; by destruct w.
Qed.

Lemma X3_stage_buttons_guard_witness :
  dispatch Sample.toLowerCase Sample.up (StageStatusClicked "1" "ongoing") Sample.blank
  = (Sample.blank, []) /\
  dispatch Sample.toLowerCase Sample.up (DeleteStageClicked 1) Sample.blank
  = (Sample.blank, []).
Proof.
  apply (X3_stage_buttons_guard Sample.toLowerCase Sample.up Sample.blank "1" "ongoing" 1).
  by left.
Defined.

(** X4.  With no project selected, [fetchStages] sends nothing and empties
    the list of stages; the rest of the state stays. *)
Theorem X4_fetchStages_without_selection (toLowerCase : string -> string) (srv : server)
    (w : world State) :
  selectedProject (component w) = None \/ selectedProject (component w) = Some "" ->
  let r := dispatch toLowerCase srv SelectedProjectChanged w in
  trace r = [Performed (SetState (setStages []))] /\
  component (final r)
  = Build (projects (component w)) [] (downloads (component w)) (projectName (component w))
          (stageName (component w)) (downloadName (component w))
          (downloadDescription (component w)) (downloadUrl (component w))
          (selectedProject (component w)).
Proof.
  intros [Hsel|Hsel]; handlers; rewrite Hsel; simpl; (split; [done|]); same_state w.
Qed.

Lemma X4_fetchStages_without_selection_witness :
  let w := World (AdminPanel.Build [Sample.alpha] [Sample.design] [] "" "" "" "" "" (Some ""))
                 ∅ "https://app.example/admin" 0 in
  let r := dispatch Sample.toLowerCase Sample.up SelectedProjectChanged w in
  trace r = [Performed (SetState (setStages []))] /\
  component (final r) = AdminPanel.Build [Sample.alpha] [] [] "" "" "" "" "" (Some "").
Proof.
  apply (X4_fetchStages_without_selection Sample.toLowerCase Sample.up). by right.
Defined.

(** *** A create or delete the server accepts *)

Section Accepted.
Variable toLowerCase : string -> string.
Variable srv : server.
Variable w : world State.

Let st := component w.
Let accepted : reply KIgnored := Resolved (T := KIgnored) tt.
Let listed_projects :=
  match srv (Datatypes.S (sent w))
            (Request GET "https://app-back-99ll.onrender.com/projects" NoBody) KProjects with
  | Resolved listed => listed
  | Failed _ => projects st
  end.
Let listed_downloads :=
  match srv (Datatypes.S (sent w))
            (Request GET "https://app-back-99ll.onrender.com/downloads" NoBody) KDownloads with
  | Resolved listed => listed
  | Failed _ => downloads st
  end.
Let listed_stages (sel : string) :=
  match srv (Datatypes.S (sent w))
            (Request GET ("https://app-back-99ll.onrender.com/projects/" +:+ sel) NoBody)
            KProject with
  | Resolved fetched => default [] fetched
  | Failed _ => stages st
  end.

Ltac opened := subst st accepted listed_projects listed_downloads listed_stages; handlers.

Lemma addProject_accepted :
  projectName st <> "" ->
  (forall p, p ∈ projects st ->
             toLowerCase (Project.projectName p) <> toLowerCase (projectName st)) ->
  srv (sent w) (Request POST "https://app-back-99ll.onrender.com/projects"
                        (ProjectBody (projectName st) (stages st))) KIgnored = accepted ->
  let r := dispatch toLowerCase srv AddProjectClicked w in
  component (final r)
  = Build listed_projects [] (downloads st) "" (stageName st) (downloadName st)
          (downloadDescription st) (downloadUrl st) (selectedProject st) /\
  alerts (trace r) = [Alert icon_success "Success" "Project added successfully!"].
Proof.
  intros Hne Hfresh Hpost. opened.
  rewrite (length_nonempty _ Hne), (find_fresh _ _ _ Hfresh). simpl.
  replied Hpost. by reply.
Qed.

Lemma addStage_accepted (sel : string) :
  selectedProject st = Some sel -> sel <> "" -> stageName st <> "" ->
  srv (sent w) (Request POST ("https://app-back-99ll.onrender.com/projects/stage/" +:+ sel)
                        (NameBody (stageName st))) KIgnored = accepted ->
  let r := dispatch toLowerCase srv AddStageClicked w in
  component (final r)
  = Build (projects st) (listed_stages sel) (downloads st) (projectName st) ""
          (downloadName st) (downloadDescription st) (downloadUrl st) (selectedProject st) /\
  alerts (trace r) = [Alert icon_success "Success" "Stage added successfully!"].
Proof.
  intros Hsel Hne Hname Hpost. opened.
  rewrite Hsel, (truthy_nonempty _ Hne), (truthy_nonempty _ Hname). simpl.
  replied Hpost. reply; same_state w.
Qed.

Lemma addDownload_accepted :
  downloadName st <> "" -> downloadDescription st <> "" -> downloadUrl st <> "" ->
  srv (sent w) (Request POST "https://app-back-99ll.onrender.com/downloads"
                        (DownloadBody (downloadName st) (downloadDescription st)
                                      (downloadUrl st))) KIgnored = accepted ->
  let r := dispatch toLowerCase srv AddDownloadClicked w in
  component (final r)
  = Build (projects st) (stages st) listed_downloads (projectName st) (stageName st)
          "" "" "" (selectedProject st) /\
  alerts (trace r) = [Alert icon_success "Success" "Download added successfully!"].
Proof.
  intros Hname Hdesc Hurl Hpost. opened.
  rewrite (truthy_nonempty _ Hname), (truthy_nonempty _ Hdesc), (truthy_nonempty _ Hurl).
  simpl. replied Hpost. by reply.
Qed.

Lemma deleteProject_accepted (projectId : string) :
  srv (sent w) (Request DELETE ("https://app-back-99ll.onrender.com/projects/" +:+ projectId)
                        NoBody) KIgnored = accepted ->
  let r := dispatch toLowerCase srv (DeleteProjectClicked projectId) w in
  component (final r)
  = Build listed_projects (stages st) (downloads st) (projectName st) (stageName st)
          (downloadName st) (downloadDescription st) (downloadUrl st) (selectedProject st) /\
  alerts (trace r) = [Alert icon_success "Success" "Deleted project successfully"].
Proof.
  intros Hdel. opened. simpl. replied Hdel. reply; same_state w.
Qed.

Lemma deleteStage_accepted (sel : string) (stageId : Z) :
  selectedProject st = Some sel -> sel <> "" ->
  srv (sent w) (Request DELETE ("https://app-back-99ll.onrender.com/projects/stage/"
                                  +:+ sel +:+ "/" +:+ pretty stageId) NoBody) KIgnored
  = accepted ->
  let r := dispatch toLowerCase srv (DeleteStageClicked stageId) w in
  component (final r)
  = Build (projects st) (listed_stages sel) (downloads st) (projectName st) (stageName st)
          (downloadName st) (downloadDescription st) (downloadUrl st) (selectedProject st) /\
  alerts (trace r) = [Alert icon_success "Success" "Deleted stage successfully"].
Proof.
  intros Hsel Hne Hdel. opened. rewrite Hsel, (truthy_nonempty _ Hne). simpl.
  replied Hdel. reply; same_state w.
Qed.

Lemma deleteDownload_accepted (downloadId : Z) :
  srv (sent w) (Request DELETE ("https://app-back-99ll.onrender.com/downloads/"
                                  +:+ pretty downloadId) NoBody) KIgnored = accepted ->
  let r := dispatch toLowerCase srv (DeleteDownloadClicked downloadId) w in
  component (final r)
  = Build (projects st) (stages st) listed_downloads (projectName st) (stageName st)
          (downloadName st) (downloadDescription st) (downloadUrl st) (selectedProject st) /\
  alerts (trace r) = [Alert icon_success "Success" "Deleted download successfully"].
Proof.
  intros Hdel. opened. simpl. replied Hdel. reply; same_state w.
Qed.
End Accepted.

(** X5.  After a create the server accepts, the form that was submitted is
    cleared, the success dialog is the one dialog shown, and the rest of
    the state is as before but for the list fetched again.
    [handleAddProject] clears the project name and also empties the list
    of stages, which it had sent along, while the selection stays;
    [handleAddStage] clears the stage name; [handleAddDownload] clears
    name, description and URL.  This holds whether the second GET
    succeeds or not. *)
Theorem X5_create_clears_form (toLowerCase : string -> string) (srv : server)
    (w : world State) :
  let st := component w in
  let accepted := Resolved (T := KIgnored) tt in
  let after (op : operation) := dispatch toLowerCase srv op w in
  let listed_projects :=
    match srv (Datatypes.S (sent w))
              (Request GET "https://app-back-99ll.onrender.com/projects" NoBody) KProjects with
    | Resolved listed => listed
    | Failed _ => projects st
    end in
  let listed_downloads :=
    match srv (Datatypes.S (sent w))
              (Request GET "https://app-back-99ll.onrender.com/downloads" NoBody)
              KDownloads with
    | Resolved listed => listed
    | Failed _ => downloads st
    end in
  let listed_stages (sel : string) :=
    match srv (Datatypes.S (sent w))
              (Request GET ("https://app-back-99ll.onrender.com/projects/" +:+ sel) NoBody)
              KProject with
    | Resolved fetched => default [] fetched
    | Failed _ => stages st
    end in
  (projectName st <> "" ->
   (forall p, p ∈ projects st ->
              toLowerCase (Project.projectName p) <> toLowerCase (projectName st)) ->
   srv (sent w) (Request POST "https://app-back-99ll.onrender.com/projects"
                         (ProjectBody (projectName st) (stages st))) KIgnored = accepted ->
   component (final (after AddProjectClicked))
   = Build listed_projects [] (downloads st) "" (stageName st) (downloadName st)
           (downloadDescription st) (downloadUrl st) (selectedProject st) /\
   alerts (trace (after AddProjectClicked))
   = [Alert icon_success "Success" "Project added successfully!"]) /\
  (forall sel,
     selectedProject st = Some sel -> sel <> "" -> stageName st <> "" ->
     srv (sent w) (Request POST ("https://app-back-99ll.onrender.com/projects/stage/" +:+ sel)
                           (NameBody (stageName st))) KIgnored = accepted ->
     component (final (after AddStageClicked))
     = Build (projects st) (listed_stages sel) (downloads st) (projectName st) ""
             (downloadName st) (downloadDescription st) (downloadUrl st)
             (selectedProject st) /\
     alerts (trace (after AddStageClicked))
     = [Alert icon_success "Success" "Stage added successfully!"]) /\
  (downloadName st <> "" -> downloadDescription st <> "" -> downloadUrl st <> "" ->
   srv (sent w) (Request POST "https://app-back-99ll.onrender.com/downloads"
                         (DownloadBody (downloadName st) (downloadDescription st)
                                       (downloadUrl st))) KIgnored = accepted ->
   component (final (after AddDownloadClicked))
   = Build (projects st) (stages st) listed_downloads (projectName st) (stageName st)
           "" "" "" (selectedProject st) /\
   alerts (trace (after AddDownloadClicked))
   = [Alert icon_success "Success" "Download added successfully!"]).
Proof.
  cbv zeta. split; [|split].
  - apply addProject_accepted.
  - apply addStage_accepted.
  - apply addDownload_accepted.
Qed.

Lemma X5_create_clears_form_witness :
  let after (op : operation) :=
    dispatch Sample.toLowerCase Sample.flaky op (Sample.admin "Gamma") in
  (component (final (after AddProjectClicked))
   = Build [Sample.alpha] [] [] "" "Review" "Manual" "User manual"
           "https://example.org/m.pdf" (Some "p1") /\
   alerts (trace (after AddProjectClicked))
   = [Alert icon_success "Success" "Project added successfully!"]) /\
  (component (final (after AddStageClicked))
   = Build [Sample.alpha] [Sample.design] [] "Gamma" "" "Manual" "User manual"
           "https://example.org/m.pdf" (Some "p1") /\
   alerts (trace (after AddStageClicked))
   = [Alert icon_success "Success" "Stage added successfully!"]) /\
  (component (final (after AddDownloadClicked))
   = Build [Sample.alpha] [Sample.design] [] "Gamma" "Review" "" "" "" (Some "p1") /\
   alerts (trace (after AddDownloadClicked))
   = [Alert icon_success "Success" "Download added successfully!"]).
Proof.
  destruct (X5_create_clears_form Sample.toLowerCase Sample.flaky (Sample.admin "Gamma"))
    as (Hproject & Hstage & Hdownload).
  cbv zeta. split; [|split].
  - apply Hproject; [discriminate| |reflexivity].
    intros p Hp. apply list_elem_of_singleton in Hp as ->. discriminate.
  - apply (Hstage "p1"); [reflexivity|discriminate|discriminate|reflexivity].
  - apply Hdownload; [discriminate|discriminate|discriminate|reflexivity].
Defined.

(** X6.  After a delete the server accepts, the success dialog is the one
    dialog shown and nothing of the state changes but the list fetched
    again; in particular a deleted project that was selected stays
    selected and its stages stay listed. *)
Theorem X6_delete_keeps_the_rest (toLowerCase : string -> string) (srv : server)
    (w : world State) :
  let st := component w in
  let accepted := Resolved (T := KIgnored) tt in
  let after (op : operation) := dispatch toLowerCase srv op w in
  let listed_projects :=
    match srv (Datatypes.S (sent w))
              (Request GET "https://app-back-99ll.onrender.com/projects" NoBody) KProjects with
    | Resolved listed => listed
    | Failed _ => projects st
    end in
  let listed_downloads :=
    match srv (Datatypes.S (sent w))
              (Request GET "https://app-back-99ll.onrender.com/downloads" NoBody)
              KDownloads with
    | Resolved listed => listed
    | Failed _ => downloads st
    end in
  let listed_stages (sel : string) :=
    match srv (Datatypes.S (sent w))
              (Request GET ("https://app-back-99ll.onrender.com/projects/" +:+ sel) NoBody)
              KProject with
    | Resolved fetched => default [] fetched
    | Failed _ => stages st
    end in
  (forall projectId,
     srv (sent w) (Request DELETE ("https://app-back-99ll.onrender.com/projects/"
                                     +:+ projectId) NoBody) KIgnored = accepted ->
     component (final (after (DeleteProjectClicked projectId)))
     = Build listed_projects (stages st) (downloads st) (projectName st) (stageName st)
             (downloadName st) (downloadDescription st) (downloadUrl st)
             (selectedProject st) /\
     alerts (trace (after (DeleteProjectClicked projectId)))
     = [Alert icon_success "Success" "Deleted project successfully"]) /\
  (forall sel stageId,
     selectedProject st = Some sel -> sel <> "" ->
     srv (sent w) (Request DELETE ("https://app-back-99ll.onrender.com/projects/stage/"
                                     +:+ sel +:+ "/" +:+ pretty stageId) NoBody) KIgnored
     = accepted ->
     component (final (after (DeleteStageClicked stageId)))
     = Build (projects st) (listed_stages sel) (downloads st) (projectName st) (stageName st)
             (downloadName st) (downloadDescription st) (downloadUrl st)
             (selectedProject st) /\
     alerts (trace (after (DeleteStageClicked stageId)))
     = [Alert icon_success "Success" "Deleted stage successfully"]) /\
  (forall downloadId,
     srv (sent w) (Request DELETE ("https://app-back-99ll.onrender.com/downloads/"
                                     +:+ pretty downloadId) NoBody) KIgnored = accepted ->
     component (final (after (DeleteDownloadClicked downloadId)))
     = Build (projects st) (stages st) listed_downloads (projectName st) (stageName st)
             (downloadName st) (downloadDescription st) (downloadUrl st)
             (selectedProject st) /\
     alerts (trace (after (DeleteDownloadClicked downloadId)))
     = [Alert icon_success "Success" "Deleted download successfully"]).
Proof.
  cbv zeta. split; [|split].
  - apply deleteProject_accepted.
  - apply deleteStage_accepted.
  - apply deleteDownload_accepted.
Qed.

Lemma X6_delete_keeps_the_rest_witness :
  let after (op : operation) :=
    dispatch Sample.toLowerCase Sample.up op (Sample.admin "") in
  (component (final (after (DeleteProjectClicked "p1")))
   = Build [Sample.alpha; Sample.beta] [Sample.design] [] "" "Review" "Manual" "User manual"
           "https://example.org/m.pdf" (Some "p1") /\
   alerts (trace (after (DeleteProjectClicked "p1")))
   = [Alert icon_success "Success" "Deleted project successfully"]) /\
  (component (final (after (DeleteStageClicked 1)))
   = Build [Sample.alpha] [Sample.design; Sample.build] [] "" "Review" "Manual" "User manual"
           "https://example.org/m.pdf" (Some "p1") /\
   alerts (trace (after (DeleteStageClicked 1)))
   = [Alert icon_success "Success" "Deleted stage successfully"]) /\
  (component (final (after (DeleteDownloadClicked 7)))
   = Build [Sample.alpha] [Sample.design] [Sample.manual] "" "Review" "Manual" "User manual"
           "https://example.org/m.pdf" (Some "p1") /\
   alerts (trace (after (DeleteDownloadClicked 7)))
   = [Alert icon_success "Success" "Deleted download successfully"]).
Proof.
  destruct (X6_delete_keeps_the_rest Sample.toLowerCase Sample.up (Sample.admin ""))
    as (Hproject & Hstage & Hdownload).
  cbv zeta. split; [|split].
  - apply (Hproject "p1"). reflexivity.
  - apply (Hstage "p1" 1); [reflexivity|discriminate|reflexivity].
  - apply (Hdownload 7). reflexivity.
Defined.

(** *** When the server is away *)




(** X8.  A success dialog is never shown for nothing: if one opens, the
    first request of the operation was a create, update or delete and
    the server accepted it. *)
Theorem X8_no_false_success (toLowerCase : string -> string) (srv : server)
    (w : world State) (op : operation) :
  let r := dispatch toLowerCase srv op w in
  Exists (fun a => alert_icon a = icon_success) (alerts (trace r)) ->
  exists mutation rest,
    requests (trace r) = mutation :: rest /\
    req_method mutation <> GET /\
    srv (sent w) mutation KIgnored = Resolved (T := KIgnored) tt.
Proof.
  destruct op; handlers; branch; simpl; repeat reply; intros Hex;
    repeat (apply Exists_cons in Hex as [Hex|Hex]);
    try discriminate; try (by apply Exists_nil in Hex);
    repeat match goal with
           | u : unit |- _ => destruct u
           | u : data KIgnored |- _ => destruct u
           end;
    eauto 10.
Qed.

Lemma X8_no_false_success_witness :
  let r := dispatch Sample.toLowerCase Sample.flaky (DeleteDownloadClicked 7)
                    (Sample.admin "") in
  exists mutation rest,
    requests (trace r) = mutation :: rest /\
    req_method mutation <> GET /\
    Sample.flaky 0%nat mutation KIgnored = Resolved (T := KIgnored) tt.
Proof.
  apply (X8_no_false_success Sample.toLowerCase Sample.flaky (Sample.admin "")
           (DeleteDownloadClicked 7)).
  apply Exists_cons_hd. reflexivity.
Defined.

(** *** Operations without a dialog *)

Lemma silent_confined (toLowerCase : string -> string) (st : State) (op : operation) :
  match op with
  | Mounted | SelectedProjectChanged | StageStatusClicked _ _ =>
      within dialogless (fun _ => True) (fun _ => True) (handler toLowerCase st op)
  | _ => True
  end.
Proof. destruct op; try exact I; handlers; branch; confine. Qed.

(** X9.  The two effects and the status button never open a dialog,
    whatever the server replies: the user is told neither that a fetch or
    a status change failed nor that it went through. *)
Theorem X9_fetches_and_toggle_are_silent (toLowerCase : string -> string) (srv : server)
    (w : world State) (stageId currentStatus : string) :
  alerts (trace (dispatch toLowerCase srv Mounted w)) = [] /\
  alerts (trace (dispatch toLowerCase srv SelectedProjectChanged w)) = [] /\
  alerts (trace (dispatch toLowerCase srv (StageStatusClicked stageId currentStatus) w)) = [].
Proof.
  repeat split; eapply dialogless_alerts, invoke_within.
  - apply (silent_confined toLowerCase (component w) Mounted).
  - apply (silent_confined toLowerCase (component w) SelectedProjectChanged).
  - apply (silent_confined toLowerCase (component w) (StageStatusClicked stageId currentStatus)).
Qed.

(** *** The selection *)

Lemma keeps_selection_replay (evs : list (event Update)) (w : world State)
    (allow_request : request -> Prop) (allow_throw : failure -> Prop) :
  Forall (allowed keeps_selection allow_request allow_throw) evs ->
  selectedProject (component (replay reduce w evs)) = selectedProject (component w).
Proof.
  intros Hall. revert w. unfold replay.
  induction Hall as [|ev evs Hev _ IH]; intros w; [done|].
  simpl. rewrite IH. by destruct ev as [[[]| | | |]| |].
Qed.

Lemma selection_confined (toLowerCase : string -> string) (st : State) (op : operation) :
  (forall value, op <> ProjectSelected value) ->
  within keeps_selection (fun _ => True) (fun _ => True) (handler toLowerCase st op).
Proof.
  intros Hop. destruct op; try (by destruct (Hop value)); handlers; branch; confine.
Qed.

(** X10.  Only the project dropdown changes the selection: after any other
    operation, whatever the server replies, [selectedProject] is what it
    was.  Deleting the selected project does not deselect it. *)
Theorem X10_selection_is_kept (toLowerCase : string -> string) (srv : server)
    (w : world State) (op : operation) :
  (forall value, op <> ProjectSelected value) ->
  selectedProject (component (final (dispatch toLowerCase srv op w)))
  = selectedProject (component w).
Proof.
  intros Hop. unfold dispatch. rewrite invoke_replay.
  eapply keeps_selection_replay, invoke_within, selection_confined, Hop.
Qed.

Lemma X10_selection_is_kept_witness :
  selectedProject (component (final (dispatch Sample.toLowerCase Sample.up
                                              (DeleteProjectClicked "p1") (Sample.admin ""))))
  = Some "p1".
Proof.
  apply (X10_selection_is_kept Sample.toLowerCase Sample.up (Sample.admin "")
           (DeleteProjectClicked "p1")).
  intros value. discriminate.
Defined.

(** *** Lists come from the server *)

(** X11.  No operation puts a list together locally.  Afterwards the
    projects are the ones before or the data of a reply of the server, and
    so are the downloads; the stages are the ones before, none, or the
    [stages] of a reply (none if the reply has no [stages]). *)
Theorem X11_lists_mirror_server (toLowerCase : string -> string) (srv : server)
    (w : world State) (op : operation) :
  let st := component w in
  let st' := component (final (dispatch toLowerCase srv op w)) in
  (projects st' = projects st \/
   exists n r, srv n r KProjects = Resolved (T := KProjects) (projects st')) /\
  (downloads st' = downloads st \/
   exists n r, srv n r KDownloads = Resolved (T := KDownloads) (downloads st')) /\
  (stages st' = stages st \/ stages st' = [] \/
   exists n r fetched, srv n r KProject = Resolved (T := KProject) fetched /\
                       stages st' = default [] fetched).
Proof.
  destruct op; handlers; branch; simpl; repeat reply;
    (split; [|split]); eauto 10.
Qed.

(** *** Mounting *)

(** X12.  On mount the panel sends the GET of the projects and the GET of
    the downloads, and each list is taken from its own reply: one fetch
    failing does not keep the other list from being shown.  Nothing else
    of the state changes. *)
Theorem X12_mount_fetches_independently (toLowerCase : string -> string) (srv : server)
    (w : world State) :
  let st := component w in
  let get_projects := Request GET "https://app-back-99ll.onrender.com/projects" NoBody in
  let get_downloads := Request GET "https://app-back-99ll.onrender.com/downloads" NoBody in
  let r := dispatch toLowerCase srv Mounted w in
  requests (trace r) = [get_projects; get_downloads] /\
  component (final r)
  = Build match srv (sent w) get_projects KProjects with
          | Resolved listed => listed
          | Failed _ => projects st
          end
          (stages st)
          match srv (Datatypes.S (sent w)) get_downloads KDownloads with
          | Resolved listed => listed
          | Failed _ => downloads st
          end
          (projectName st) (stageName st) (downloadName st) (downloadDescription st)
          (downloadUrl st) (selectedProject st).
Proof.
  handlers. simpl. repeat reply; by destruct w as [[]].
Qed.

(** *** Selecting a project *)

(** X13.  Picking a project in the dropdown and the effect that follows:
    the dropdown shows the project picked; if its id is not empty, exactly
    the GET of that project is sent and the stages become the ones of the
    reply (they stay if the GET fails); if it is empty, nothing is sent
    and the stages are emptied. *)
Theorem X13_selecting_loads_stages (toLowerCase : string -> string) (srv : server)
    (w : world State) (value : string) :
  let selected := final (dispatch toLowerCase srv (ProjectSelected value) w) in
  let r := dispatch toLowerCase srv SelectedProjectChanged selected in
  let get := Request GET ("https://app-back-99ll.onrender.com/projects/" +:+ value) NoBody in
  selectedProject (component selected) = Some value /\
  selectValue (component selected) = value /\
  (value <> "" ->
   requests (trace r) = [get] /\
   stages (component (final r))
   = match srv (sent w) get KProject with
     | Resolved fetched => default [] fetched
     | Failed _ => stages (component w)
     end) /\
  (value = "" -> requests (trace r) = [] /\ stages (component (final r)) = []).
Proof.
  cbv zeta. split; [done|]. split; [by destruct value|]. split.
  - intros Hne. handlers. simpl. rewrite (truthy_nonempty _ Hne). simpl. by reply.
  - by intros ->.
Qed.

Lemma X13_selecting_loads_stages_witness :
  let selected := final (dispatch Sample.toLowerCase Sample.up (ProjectSelected "p2")
                                  Sample.blank) in
  let r := dispatch Sample.toLowerCase Sample.up SelectedProjectChanged selected in
  (requests (trace r)
   = [Request GET "https://app-back-99ll.onrender.com/projects/p2" NoBody] /\
   stages (component (final r)) = [Sample.design; Sample.build]) /\
  (let cleared := dispatch Sample.toLowerCase Sample.up SelectedProjectChanged
                           (final (dispatch Sample.toLowerCase Sample.up (ProjectSelected "")
                                            (Sample.admin ""))) in
   requests (trace cleared) = [] /\ stages (component (final cleared)) = []).
Proof.
  destruct (X13_selecting_loads_stages Sample.toLowerCase Sample.up Sample.blank "p2")
    as (_ & _ & Hloaded & _).
  destruct (X13_selecting_loads_stages Sample.toLowerCase Sample.up (Sample.admin "") "")
    as (_ & _ & _ & Hcleared).
  split.
  - apply Hloaded. discriminate.
  - apply Hcleared. reflexivity.
Defined.

(** *** The status button *)

(** X14.  Whatever string a stage has as its status, the toggle sends one
    of the three statuses; the button has the colour the public view
    gives that status; and a string that is neither "ongoing" nor
    "completed" is shown and toggled exactly as "incomplete" is. *)
Theorem X14_status_button (status : string) :
  (exists s, newStatus status = Status.to_string s) /\
  (forall s, statusColor (Status.to_string s) = DownloadPage.getCardColor s) /\
  (status = "ongoing" \/ status = "completed" \/
   statusColor status = statusColor "incomplete" /\
   statusLabel status = statusLabel "incomplete" /\
   newStatus status = newStatus "incomplete").
Proof.
  split; [|split].
  - unfold newStatus. destruct (String.eqb status "ongoing");
      [by exists Status.completed|].
    destruct (String.eqb status "completed");
      [by exists Status.incomplete|by exists Status.ongoing].
  - by intros [].
  - unfold statusColor, statusLabel, newStatus.
    destruct (String.eqb_spec status "ongoing"); [by left|].
    destruct (String.eqb_spec status "completed"); [by right; left|].
    by right; right.
Qed.
End AdminPanelMore.

(** ** The public stage view *)

Module DownloadPageMore.
Import DownloadPage.
Import DownloadPageSpec.

(** *** What a drag leaves behind *)

(** X15.  [onDragEnd] never calls [setStages]: whatever was dragged where
    and whatever the server replies, the stages on screen are in the
    order they were in. *)
Theorem X15_drag_keeps_state (props : Props) (srv : server) (w : world State)
    (result : DropResult) :
  component (final (dispatch props srv (DragEnded result) w)) = component w.
Proof.
  handlers. branch; simpl; try reply; done.
Qed.

(** *** A status edit the server refuses *)



(** *** Status edits, one after the other *)

Section Edits.
Variable st : State.
Implicit Types (stageId : Z) (status : Status.t).

Lemma updatedStages_again stageId status status' :
  updatedStages (Build (updatedStages st stageId status)) stageId status'
  = updatedStages st stageId status'.
Proof.
  unfold updatedStages. simpl. rewrite <- list_fmap_compose.
  apply list_fmap_ext. intros i stage _. simpl.
  destruct (Stage.id stage =? stageId) eqn:Hsame; simpl; by rewrite Hsame.
Qed.

Lemma updatedStages_swap stageId stageId' status status' :
  stageId <> stageId' ->
  updatedStages (Build (updatedStages st stageId status)) stageId' status'
  = updatedStages (Build (updatedStages st stageId' status')) stageId status.
Proof.
  intros Hne. unfold updatedStages. simpl. rewrite <- !list_fmap_compose.
  apply list_fmap_ext. intros i stage _. simpl.
  destruct (Stage.id stage =? stageId) eqn:Hfirst;
    destruct (Stage.id stage =? stageId') eqn:Hsecond;
    simpl; rewrite ?Hfirst, ?Hsecond; try done.
  apply Z.eqb_eq in Hfirst, Hsecond. congruence.
Qed.

Lemma updatedStages_alter stageId status (i : nat) (stage : Stage.t) :
  NoDup (Stage.id <$> stages st) ->
  stages st !! i = Some stage ->
  Stage.id stage = stageId ->
  updatedStages st stageId status
  = alter (fun stage => Stage.with_status stage status) i (stages st).
Proof.
  intros Hnodup Hi Hid. apply list_eq. intros j.
  rewrite updatedStages_lookup. destruct (decide (i = j)) as [<-|Hij].
  - rewrite list_lookup_alter_eq, Hi. simpl.
    by rewrite (proj2 (Z.eqb_eq _ _) Hid).
  - rewrite list_lookup_alter_ne by done.
    destruct (stages st !! j) as [other|] eqn:Hj; [|done]. simpl.
    destruct (Z.eqb_spec (Stage.id other) stageId) as [Heq|]; [|done].
    destruct Hij. apply (NoDup_lookup _ _ _ (Stage.id stage) Hnodup).
    + by rewrite list_lookup_fmap, Hi.
    + rewrite list_lookup_fmap, Hj. simpl. congruence.
Qed.
End Edits.

Lemma edited (props : Props) (srv : server) (w : world State)
    (stageId : Z) (status : Status.t) :
  isAdmin props = true ->
  component (final (dispatch props srv (StatusSelected stageId status) w))
  = Build (updatedStages (component w) stageId status).
Proof.
  intros Hadmin.
  destruct (status_edit_state props srv w stageId status Hadmin) as [Hstages _].
  destruct (component (final _)). simpl in Hstages. by subst.
Qed.

(** X17.  Status edits by an admin compose as assignments do: of two edits
    of the same stage the second wins (the same edit twice is the edit
    once), and edits of stages with different ids give the same state in
    either order; the replies of the server play no part. *)
Theorem X17_edits_compose (props : Props) (srv : server) (w : world State)
    (stageId stageId' : Z) (status status' : Status.t) :
  isAdmin props = true ->
  let after (ops : list operation) :=
    component (foldl (fun w op => final (dispatch props srv op w)) w ops) in
  after [StatusSelected stageId status; StatusSelected stageId status']
  = after [StatusSelected stageId status'] /\
  (stageId <> stageId' ->
   after [StatusSelected stageId status; StatusSelected stageId' status']
   = after [StatusSelected stageId' status'; StatusSelected stageId status]).
Proof.
  intros Hadmin. simpl. rewrite !edited by done. split.
  - by rewrite updatedStages_again.
  - intros Hne. by rewrite updatedStages_swap.
Qed.

Lemma X17_edits_compose_witness :
  let after (ops : list operation) :=
    component (foldl (fun w op => final (dispatch (Sample.page true) Sample.flaky op w))
                     (Sample.public true) ops) in
  after [StatusSelected 1 Status.ongoing; StatusSelected 1 Status.incomplete]
  = after [StatusSelected 1 Status.incomplete] /\
  after [StatusSelected 1 Status.ongoing; StatusSelected 3 Status.completed]
  = after [StatusSelected 3 Status.completed; StatusSelected 1 Status.ongoing].
Proof.
  destruct (X17_edits_compose (Sample.page true) Sample.flaky (Sample.public true)
              1 1 Status.ongoing Status.incomplete eq_refl) as [Hagain _].
  destruct (X17_edits_compose (Sample.page true) Sample.flaky (Sample.public true)
              1 3 Status.ongoing Status.completed eq_refl) as [_ Hswap].
  split; [exact Hagain|]. apply Hswap. discriminate.
Defined.

(** X18.  With stage ids that are all different, picking a status in the
    select of the i-th card changes the i-th stage and no other: the
    stages afterwards are the stages before with the status of the one at
    [i] replaced. *)
Theorem X18_edit_on_card (props : Props) (srv : server) (w : world State)
    (i : nat) (card : Card) (value : Status.t) :
  isAdmin props = true ->
  NoDup (Stage.id <$> stages (component w)) ->
  render (component w) !! i = Some card ->
  stages (component (final (dispatch props srv (onChange card value) w)))
  = alter (fun stage => Stage.with_status stage value) i (stages (component w)).
Proof.
  intros Hadmin Hnodup Hcard. unfold render in Hcard.
  rewrite list_lookup_imap in Hcard.
  destruct (stages (component w) !! i) as [stage|] eqn:Hi; [|done].
  simpl in Hcard. injection Hcard as <-. unfold onChange. simpl.
  rewrite edited by done. simpl. by apply (updatedStages_alter _ _ _ i stage).
Qed.

Lemma X18_edit_on_card_witness :
  let card := BuildCard 2 "2" 1 Status.ongoing "rgba(255, 165, 0, 0.5)" 2
                        "rgba(255, 165, 0, 0.5)" "Build" true in
  stages (component (final (dispatch (Sample.page true) Sample.up
                                     (onChange card Status.completed) (Sample.public true))))
  = [Sample.design; Stage.with_status Sample.build Status.completed; Sample.ship].
Proof.
  apply (X18_edit_on_card (Sample.page true) Sample.up (Sample.public true) 1).
  - reflexivity.
  - apply NoDup_ListNoDup. simpl.
    repeat (apply List.NoDup_cons; [simpl; intuition discriminate|]). apply List.NoDup_nil.
  - reflexivity.
Defined.

(** *** Drags *)

(** The list a drag from a rendered position sends, without the
    [undefined] a JavaScript array could hold. *)
Lemma reorderedStages_defined (st : State) (src dst : nat) (moved : Stage.t) :
  stages st !! src = Some moved ->
  reorderedStages st src dst
  = Array_from (take dst (delete src (stages st)) ++ moved :: drop dst (delete src (stages st))).
Proof.
  intros Hsrc. rewrite reorderedStages_spliced, Array_from_delete.
  unfold Array_from, splice_in. rewrite list_lookup_fmap, Hsrc.
  by rewrite fmap_app, fmap_cons, fmap_take, fmap_drop.
Qed.

(** X19.  Dragging back undoes a drag: if a view shows the order that a
    drag from [src] to [dst] between rendered positions sent, the drag
    from [dst] to [src] there sends the original order. *)
Theorem X19_drag_back (st st' : State) (src dst : nat) :
  (src < length (stages st))%nat -> (dst < length (stages st))%nat ->
  Array_from (stages st') = reorderedStages st src dst ->
  reorderedStages st' dst src = Array_from (stages st).
Proof.
  intros Hsrc Hdst Hmoved.
  destruct (lookup_lt_is_Some_2 _ _ Hsrc) as [moved Hat].
  rewrite reorderedStages_spliced, Hmoved.
  rewrite (reorderedStages_lookup _ _ _ Hsrc Hdst), (reorderedStages_delete _ _ _ Hsrc Hdst).
  rewrite Hat. simpl. rewrite <- Array_from_delete.
  apply splice_in_out. unfold Array_from. by rewrite list_lookup_fmap, Hat.
Qed.

Lemma X19_drag_back_witness :
  reorderedStages Sample.reordered 2 0
  = [Some Sample.design; Some Sample.build; Some Sample.ship].
Proof.
  apply (X19_drag_back (component (Sample.public true)) Sample.reordered 0 2).
  - simpl. lia.
  - simpl. lia.
  - reflexivity.
Defined.

(** X20.  A source index past the rendered stages: nothing is taken out,
    and the list the admin's drag sends is the whole list with an
    [undefined] slot put in, one longer than the stages. *)
Theorem X20_drag_from_nowhere (props : Props) (srv : server) (w : world State)
    (src dst : nat) :
  isAdmin props = true ->
  (length (stages (component w)) <= src)%nat ->
  let sentStages := splice_in dst None (Array_from (stages (component w))) in
  requests (trace (dispatch props srv (DragEnded (Drop (At src) (Some (At dst)))) w))
  = [Request PUT ("https://app-back-99ll.onrender.com/reorder/" +:+ pretty (projectId props))
             (StagesBody sentStages)] /\
  length sentStages = Datatypes.S (length (stages (component w))) /\
  None ∈ sentStages.
Proof.
  intros Hadmin Hsrc sentStages. split; [|split].
  - rewrite (drag_requests _ _ _ _ _ Hadmin). by rewrite reorderedStages_unrendered.
  - unfold sentStages, Array_from. by rewrite splice_in_length, length_fmap.
  - apply splice_in_elem.
Qed.

Lemma X20_drag_from_nowhere_witness :
  let sentStages := [Some Sample.design; None; Some Sample.build; Some Sample.ship] in
  requests (trace (dispatch (Sample.page true) Sample.up
                            (DragEnded (Drop (At 7) (Some (At 1)))) (Sample.public true)))
  = [Request PUT "https://app-back-99ll.onrender.com/reorder/5" (StagesBody sentStages)] /\
  length sentStages = 4%nat /\
  None ∈ sentStages.
Proof.
  apply (X20_drag_from_nowhere (Sample.page true) Sample.up (Sample.public true) 7 1).
  - reflexivity.
  - simpl. lia.
Defined.

(** *** What is rendered *)

Lemma render_lookup (st : State) (i : nat) (card : Card) :
  render st !! i = Some card ->
  exists stage, stages st !! i = Some stage /\
    card = BuildCard (Stage.id stage) (pretty (Stage.id stage)) i (Stage.status stage)
                     (getCardColor (Stage.status stage)) (i + 1)
                     (getCardColor (Stage.status stage)) (Stage.name stage)
                     (Z.ltb (Z.of_nat i) (Z.of_nat (length (stages st)) - 1)).
Proof.
  unfold render. rewrite list_lookup_imap.
  destruct (stages st !! i) as [stage|]; [|done].
  intros [= <-]. by exists stage.
Qed.

(** X21.  The i-th card rendered is the i-th stage: its [Draggable] has
    index [i], which is below the number of stages, its badge shows
    [i + 1], its select and its box have the same colour, and an arrow
    follows it exactly when it is not the last one. *)
Theorem X21_rendered_cards (st : State) (i : nat) (card : Card) :
  render st !! i = Some card ->
  card_index card = i /\
  (card_index card < length (stages st))%nat /\
  card_badge card = Datatypes.S i /\
  (card_arrow card = true <-> (i + 1 < length (stages st))%nat) /\
  card_selectColor card = card_color card /\
  exists stage, stages st !! i = Some stage /\
    card_key card = Stage.id stage /\
    card_text card = Stage.name stage /\
    card_value card = Stage.status stage.
Proof.
  intros Hcard. destruct (render_lookup _ _ _ Hcard) as (stage & Hi & ->). simpl.
  pose proof (lookup_lt_Some _ _ _ Hi) as Hlt.
  split; [done|]. split; [done|]. split; [lia|]. split; [|split; [done|by exists stage]].
  rewrite Z.ltb_lt. lia.
Qed.

Lemma X21_rendered_cards_witness :
  let card := BuildCard 3 "3" 2 Status.incomplete "rgba(128, 128, 128, 0.5)" 3
                        "rgba(128, 128, 128, 0.5)" "Ship" false in
  card_index card = 2%nat /\
  (card_index card < 3)%nat /\
  card_badge card = 3%nat /\
  (card_arrow card = true <-> (2 + 1 < 3)%nat) /\
  card_selectColor card = card_color card /\
  exists stage, [Sample.design; Sample.build; Sample.ship] !! 2%nat = Some stage /\
    card_key card = Stage.id stage /\
    card_text card = Stage.name stage /\
    card_value card = Stage.status stage.
Proof.
  apply (X21_rendered_cards (component (Sample.public true)) 2). reflexivity.
Defined.

(** X22.  There is one card per stage, and with stage ids that are all
    different the keys of the cards and the [draggableId]s, the ids in
    decimal, are all different as well. *)
Theorem X22_rendered_ids_unique (st : State) :
  length (render st) = length (stages st) /\
  (NoDup (Stage.id <$> stages st) ->
   NoDup (card_key <$> render st) /\ NoDup (card_draggableId <$> render st)).
Proof.
  split; [apply length_imap|]. intros Hnodup. unfold render.
  rewrite !fmap_imap. split.
  - erewrite imap_ext; [rewrite (imap_const Stage.id)|]; done.
  - erewrite imap_ext;
      [rewrite (imap_const (fun stage => pretty (Stage.id stage)))|]; [|done].
    replace ((fun stage => pretty (Stage.id stage)) <$> stages st)
      with (pretty <$> (Stage.id <$> stages st)) by (by rewrite <- list_fmap_compose).
    by apply (NoDup_fmap_2 pretty).
Qed.

Lemma X22_rendered_ids_unique_witness :
  NoDup (card_key <$> render (component (Sample.public true))) /\
  NoDup (card_draggableId <$> render (component (Sample.public true))).
Proof.
  apply (proj2 (X22_rendered_ids_unique (component (Sample.public true)))).
  apply NoDup_ListNoDup. simpl.
    repeat (apply List.NoDup_cons; [simpl; intuition discriminate|]). apply List.NoDup_nil.
Defined.

(** X23.  An admin dragging a rendered card onto the place of a rendered
    card sends a list without holes that is a permutation of the stages
    and has the dragged stage at the place of the target. *)
Theorem X23_drag_between_cards (props : Props) (srv : server) (w : world State)
    (from to : Card) :
  isAdmin props = true ->
  from ∈ render (component w) -> to ∈ render (component w) ->
  exists sentStages,
    requests (trace (dispatch props srv
                       (DragEnded (Drop (At (card_index from)) (Some (At (card_index to))))) w))
    = [Request PUT ("https://app-back-99ll.onrender.com/reorder/" +:+ pretty (projectId props))
               (StagesBody (Array_from sentStages))] /\
    sentStages ≡ₚ stages (component w) /\
    sentStages !! card_index to = stages (component w) !! card_index from.
Proof.
  intros Hadmin Hfrom Hto.
  apply list_elem_of_lookup in Hfrom as [i Hfrom], Hto as [j Hto].
  destruct (render_lookup _ _ _ Hfrom) as (moved & Hi & ->).
  destruct (render_lookup _ _ _ Hto) as (target & Hj & ->). simpl.
  pose proof (lookup_lt_Some _ _ _ Hi) as Hilt.
  pose proof (lookup_lt_Some _ _ _ Hj) as Hjlt.
  set (l := stages (component w)) in *.
  exists (take j (delete i l) ++ moved :: drop j (delete i l)). split; [|split].
  - rewrite (drag_requests _ _ _ _ _ Hadmin). by rewrite (reorderedStages_defined _ _ _ _ Hi).
  - rewrite <- Permutation_middle, take_drop. symmetry. by apply delete_Permutation.
  - rewrite Hi. apply list_lookup_middle.
    rewrite length_take, length_delete by eauto. lia.
Qed.

Lemma X23_drag_between_cards_witness :
  let from := BuildCard 1 "1" 0 Status.completed "rgba(0, 128, 0, 0.5)" 1
                        "rgba(0, 128, 0, 0.5)" "Design" true in
  let to := BuildCard 3 "3" 2 Status.incomplete "rgba(128, 128, 128, 0.5)" 3
                      "rgba(128, 128, 128, 0.5)" "Ship" false in
  exists sentStages,
    requests (trace (dispatch (Sample.page true) Sample.up
                              (DragEnded (Drop (At 0) (Some (At 2)))) (Sample.public true)))
    = [Request PUT "https://app-back-99ll.onrender.com/reorder/5"
               (StagesBody (Array_from sentStages))] /\
    sentStages ≡ₚ [Sample.design; Sample.build; Sample.ship] /\
    sentStages !! 2%nat = Some Sample.design.
Proof.
  intros from to.
  apply (X23_drag_between_cards (Sample.page true) Sample.up (Sample.public true) from to).
  - reflexivity.
  - apply (list_elem_of_lookup_2 _ 0%nat). reflexivity.
  - apply (list_elem_of_lookup_2 _ 2%nat). reflexivity.
Defined.

(** *** The mount effect *)

(** X24.  The mount effect writes the address of the page under
    "lastPage" and, unless that address is empty, replaces the history
    entry by the same address; what was stored under "lastPage" before is
    overwritten unread, so the effect never leads anywhere else.  Running
    it again changes nothing more. *)
Theorem X24_mount_is_idempotent (props : Props) (srv : server) (w : world State) :
  let r := dispatch props srv Mounted w in
  trace r = Performed (SetItem "lastPage" (href w))
            :: (if truthy (href w) then [Performed (ReplaceState (href w))] else []) /\
  dispatch props srv Mounted (final r) = (final r, trace r).
Proof.
  handlers. simpl. rewrite !lookup_insert_eq.
  destruct (truthy (href w)) eqn:Hhref; simpl; rewrite ?Hhref; simpl;
    rewrite insert_insert_eq; by destruct w.
Qed.
End DownloadPageMore.

(** ** Both components *)

Lemma bodied_admin (toLowerCase : string -> string) (st : AdminPanel.State)
    (op : AdminPanel.operation) :
  within (fun _ => True) bodied (fun _ => True) (AdminPanel.handler toLowerCase st op).
Proof. destruct op; AdminPanelSpec.handlers; AdminPanelSpec.branch; confine. Qed.

Lemma bodied_public (props : DownloadPage.Props) (st : DownloadPage.State)
    (op : DownloadPage.operation) :
  within (fun _ => True) bodied (fun _ => True) (DownloadPage.handler props st op).
Proof. destruct op; DownloadPageSpec.handlers; DownloadPageSpec.branch; confine. Qed.

(** X25.  Every GET and every DELETE either component sends carries no
    data, and every POST and every PUT carries an object. *)
Theorem X25_requests_carry_data :
  (forall toLowerCase srv op w,
     Forall bodied (requests (trace (AdminPanel.dispatch toLowerCase srv op w)))) /\
  (forall props srv op w,
     Forall bodied (requests (trace (DownloadPage.dispatch props srv op w)))).
Proof.
  split; intros; eapply allowed_requests, invoke_within.
  - apply bodied_admin.
  - apply bodied_public.
Qed.

(** X26.  One user action or effect is at most two requests in the admin
    panel and at most one in the public view, whatever the server
    replies: nothing is sent in a loop and nothing is sent again. *)
Theorem X26_request_count :
  (forall toLowerCase srv op w,
     (length (requests (trace (AdminPanel.dispatch toLowerCase srv op w))) <= 2)%nat) /\
  (forall props srv op w,
     (length (requests (trace (DownloadPage.dispatch props srv op w))) <= 1)%nat).
Proof.
  split; intros.
  - destruct op; AdminPanelSpec.handlers; AdminPanelSpec.branch; simpl; repeat reply; lia.
  - destruct op; DownloadPageSpec.handlers; DownloadPageSpec.branch; simpl;
      rewrite ?lookup_insert_eq; simpl; DownloadPageSpec.branch; repeat reply; simpl; lia.
Qed.
